(** * passport-etsy: the Etsy OAuth 1.0a strategy and its profile parser

    A shallow embedding of [lib/strategy.js] and [lib/profile.js] together
    with the part of JavaScript they run on: dynamically typed values,
    truthiness, property reads that throw on null and undefined, string
    conversion, and the JSON text parser. *)

From stdpp Require Import gmap strings list pretty.
From Stdlib Require Import ZArith Ascii String.

Open Scope string_scope.

#[local] Set Warnings "-register-all".

(** ** JavaScript values *)

Module JS.

(** A number is kept as the exact decimal [m * 10^e] of its literal; the
    rounding to an IEEE double is not part of the model.  Objects are
    association lists in insertion order, one entry per key. *)
Inductive value : Type :=
| VUndefined
| VNull
| VBool (b : bool)
| VNum (m e : Z)
| VStr (s : string)
| VArr (elems : list value)
| VObj (fields : list (string * value)).

Inductive exn : Type :=
| SyntaxError
| TypeError.

(** The outcome of an expression that may throw. *)
Definition result (A : Type) : Type := exn + A.

Definition of_nat (n : nat) : value := VNum (Z.of_nat n) 0.

(** ToBoolean. *)
Definition truthy (v : value) : bool :=
  match v with
  | VUndefined | VNull => false
  | VBool b => b
  | VNum m _ => negb (m =? 0)%Z
  | VStr s => negb (String.eqb s "")
  | VArr _ | VObj _ => true
  end.

(** Own property of an object. *)
Fixpoint own (fields : list (string * value)) (k : string) : option value :=
  match fields with
  | [] => None
  | (k', v) :: rest => if String.eqb k' k then Some v else own rest k
  end.

Definition obj_get (fields : list (string * value)) (k : string) : value :=
  default VUndefined (own fields k).

(** [o.k = v] on the fields of an object: an existing key keeps its place,
    a new key goes last. *)
Fixpoint obj_set (fields : list (string * value)) (k : string) (v : value)
  : list (string * value) :=
  match fields with
  | [] => [(k, v)]
  | (k', v') :: rest =>
      if String.eqb k' k then (k', v) :: rest else (k', v') :: obj_set rest k v
  end.

Definition keys (fields : list (string * value)) : list string := fields.*1.

(** [v.k] for a property name [k].  Reading a property of null or undefined
    throws a TypeError.  The names this program reads (results, errors,
    length, message, code, user_id, login_name, primary_email, denied,
    screen_name) are on no built-in prototype, except length on arrays and
    strings.  The length of a string counts its bytes; the program only
    asks whether a length is zero. *)
Definition get_prop (v : value) (k : string) : result value :=
  match v with
  | VUndefined | VNull => inl TypeError
  | VObj fields => inr (obj_get fields k)
  | VArr l => inr (if String.eqb k "length" then of_nat (List.length l) else VUndefined)
  | VStr s => inr (if String.eqb k "length" then of_nat (String.length s) else VUndefined)
  | VBool _ | VNum _ _ => inr VUndefined
  end.

(** [v[i]] for an index [i]. *)
Definition get_index (v : value) (i : nat) : result value :=
  match v with
  | VUndefined | VNull => inl TypeError
  | VArr l => inr (default VUndefined (l !! i))
  | VStr s =>
      inr (match String.get i s with
           | Some c => VStr (String c "")
           | None => VUndefined
           end)
  | VObj fields => inr (obj_get fields (pretty i))
  | VBool _ | VNum _ _ => inr VUndefined
  end.

(** [v.k = x]; the result is the updated [v]. *)
Definition set_prop (v : value) (k : string) (x : value) : result value :=
  match v with
  | VUndefined | VNull => inl TypeError
  | VObj fields => inr (VObj (obj_set fields k x))
  | _ => inr v
  end.

(** *** Number to string *)

Fixpoint drop_zeros (ds : list ascii) : list ascii :=
  match ds with
  | c :: rest => if Ascii.eqb c "0" then drop_zeros rest else ds
  | [] => []
  end.

Definition zeros (n : nat) : string := string_of_list_ascii (replicate n "0"%char).

(** Number::toString in radix 10, on the decimal [m * 10^e]. *)
Definition Number_toString (m e : Z) : string :=
  if (m =? 0)%Z then "0" else
  let sign := if (m <? 0)%Z then "-" else "" in
  let all := list_ascii_of_string (pretty (Z.abs m)) in
  let ds := rev (drop_zeros (rev all)) in
  let k := Z.of_nat (List.length ds) in
  let n := (Z.of_nat (List.length all) + e)%Z in
  let d := string_of_list_ascii ds in
  sign ++
  (if (k <=? n)%Z && (n <=? 21)%Z then d ++ zeros (Z.to_nat (n - k))
   else if (0 <? n)%Z && (n <=? 21)%Z then
     string_of_list_ascii (take (Z.to_nat n) ds) ++ "." ++
     string_of_list_ascii (drop (Z.to_nat n) ds)
   else if (-6 <? n)%Z && (n <=? 0)%Z then "0." ++ zeros (Z.to_nat (- n)) ++ d
   else
     let ex := ((if (0 <=? n - 1)%Z then "e+" else "e-") ++ pretty (Z.abs (n - 1)))%string in
     match ds with
     | [c] => String c ex
     | c :: rest => String c ("." ++ string_of_list_ascii rest ++ ex)
     | [] => ex
     end).

(** ToString, as the [+] operator applies it to its right operand.  An
    array prints its elements joined by commas, null and undefined elements
    as nothing; an object prints as [object Object], and one whose own
    toString property is not a function (no value here is one) cannot be
    converted. *)
Fixpoint to_string (v : value) : result string :=
  match v with
  | VUndefined => inr "undefined"
  | VNull => inr "null"
  | VBool b => inr (if b then "true" else "false")
  | VNum m e => inr (Number_toString m e)
  | VStr s => inr s
  | VArr l =>
      let elem (x : value) : result string :=
        match x with
        | VUndefined | VNull => inr ""
        | _ => to_string x
        end in
      (fix join (l : list value) : result string :=
         match l with
         | [] => inr ""
         | [x] => elem x
         | x :: rest =>
             match elem x, join rest with
             | inr s, inr r => inr (s ++ "," ++ r)
             | inl ex, _ | _, inl ex => inl ex
             end
         end) l
  | VObj fields =>
      match own fields "toString" with
      | Some _ => inl TypeError
      | None => inr "[object Object]"
      end
  end.

(** The values without undefined inside: the ones a JSON text can denote. *)
Fixpoint defined (v : value) : bool :=
  match v with
  | VUndefined => false
  | VArr l => forallb defined l
  | VObj fields => forallb (fun kv => defined kv.2) fields
  | _ => true
  end.

End JS.

(** ** JSON.parse

    The built-in parser, as a total function on texts: a lexer that reads
    the text once, character by character, and a pushdown recogniser over
    its tokens.  Strings are byte strings; an escaped code unit is written
    out in UTF-8. *)

Module JSON.
Import JS.

Inductive token : Type :=
| TLBrace | TRBrace | TLBracket | TRBracket | TColon | TComma
| TStr (s : string)
| TNum (m e : Z)
| TTrue | TFalse | TNull.

Definition code (c : ascii) : N := N_of_ascii c.

Definition is_ws (c : ascii) : bool :=
  let n := code c in
  (n =? 32)%N || (n =? 9)%N || (n =? 10)%N || (n =? 13)%N.

Definition is_digit (c : ascii) : bool :=
  let n := code c in (48 <=? n)%N && (n <=? 57)%N.

(** The characters a number literal is made of. *)
Definition is_num_char (c : ascii) : bool :=
  is_digit c || Ascii.eqb c "-" || Ascii.eqb c "+" || Ascii.eqb c "." ||
  Ascii.eqb c "e" || Ascii.eqb c "E".

Fixpoint span_digits (cs : list ascii) : list ascii * list ascii :=
  match cs with
  | c :: rest =>
      if is_digit c then let '(ds, r) := span_digits rest in (c :: ds, r)
      else ([], cs)
  | [] => ([], [])
  end.

Definition digits_value (ds : list ascii) : Z :=
  fold_left (fun acc c => (10 * acc + (Z.of_N (code c) - 48))%Z) ds 0%Z.

(** The exponent part of a number literal, or nothing. *)
Definition exponent_of (cs : list ascii) : option Z :=
  match cs with
  | [] => Some 0%Z
  | c :: r =>
      if Ascii.eqb c "e" || Ascii.eqb c "E" then
        let '(sgn, r) :=
          match r with
          | s :: r' =>
              if Ascii.eqb s "+" then (1%Z, r')
              else if Ascii.eqb s "-" then ((-1)%Z, r')
              else (1%Z, r)
          | [] => (1%Z, r)
          end in
        match span_digits r with
        | ((_ :: _) as ed, []) => Some (sgn * digits_value ed)%Z
        | _ => None
        end
      else None
  end.

(** A number literal: an optional minus, an integer part without leading
    zero, an optional fraction (a dot and digits), an optional exponent;
    read as the pair (m, e) of the decimal it denotes. *)
Definition number_of (cs : list ascii) : option (Z * Z) :=
  let '(sgn, cs) :=
    match cs with
    | c :: r => if Ascii.eqb c "-" then ((-1)%Z, r) else (1%Z, cs)
    | [] => (1%Z, cs)
    end in
  let '(ip, cs) := span_digits cs in
  let leading_zero :=
    match ip with
    | c :: _ :: _ => Ascii.eqb c "0"
    | _ => false
    end in
  match ip with
  | [] => None
  | _ :: _ =>
      if leading_zero then None else
      let frac :=
        match cs with
        | c :: r =>
            if Ascii.eqb c "." then
              match span_digits r with
              | ((_ :: _) as fp, r') => Some (fp, r')
              | _ => None
              end
            else Some ([], cs)
        | [] => Some ([], cs)
        end in
      '(fp, cs) ← frac;
      ex ← exponent_of cs;
      Some ((sgn * digits_value (ip ++ fp))%Z, (ex - Z.of_nat (List.length fp))%Z)
  end.

Definition hex_val (c : ascii) : option N :=
  let n := code c in
  if (48 <=? n)%N && (n <=? 57)%N then Some (n - 48)%N
  else if (65 <=? n)%N && (n <=? 70)%N then Some (n - 55)%N
  else if (97 <=? n)%N && (n <=? 102)%N then Some (n - 87)%N
  else None.

Definition hex4 (a b c d : ascii) : option N :=
  x ← hex_val a; y ← hex_val b; z ← hex_val c; w ← hex_val d;
  Some (((x * 16 + y) * 16 + z) * 16 + w)%N.

(** The character a one-letter escape stands for. *)
Definition simple_escape (c : ascii) : option ascii :=
  if Ascii.eqb c "034" then Some "034"%char
  else if Ascii.eqb c "\" then Some "\"%char
  else if Ascii.eqb c "/" then Some "/"%char
  else if Ascii.eqb c "b" then Some "008"%char
  else if Ascii.eqb c "f" then Some "012"%char
  else if Ascii.eqb c "n" then Some "010"%char
  else if Ascii.eqb c "r" then Some "013"%char
  else if Ascii.eqb c "t" then Some "009"%char
  else None.

Definition utf8 (cp : N) : list ascii :=
  if (cp <? 128)%N then [ascii_of_N cp]
  else if (cp <? 2048)%N then
    [ascii_of_N (192 + cp / 64); ascii_of_N (128 + cp mod 64)]
  else if (cp <? 65536)%N then
    [ascii_of_N (224 + cp / 4096); ascii_of_N (128 + (cp / 64) mod 64);
     ascii_of_N (128 + cp mod 64)]
  else
    [ascii_of_N (240 + cp / 262144); ascii_of_N (128 + (cp / 4096) mod 64);
     ascii_of_N (128 + (cp / 64) mod 64); ascii_of_N (128 + cp mod 64)].

Definition is_high (u : N) : bool := (55296 <=? u)%N && (u <=? 56319)%N.
Definition is_low (u : N) : bool := (56320 <=? u)%N && (u <=? 57343)%N.

(** The bytes of a string body: a literal byte stands for itself, an
    escaped code unit for its UTF-8 bytes, a surrogate pair for the bytes
    of the code point it encodes. *)
Fixpoint string_bytes (us : list (ascii + N)) : list ascii :=
  match us with
  | [] => []
  | inl c :: rest => c :: string_bytes rest
  | inr u :: rest =>
      match rest with
      | inr l :: rest' =>
          if is_high u && is_low l
          then utf8 (65536 + (u - 55296) * 1024 + (l - 56320)) ++ string_bytes rest'
          else utf8 u ++ string_bytes rest
      | _ => utf8 u ++ string_bytes rest
      end
  end.

Inductive lex_mode : Type :=
| LTop
| LStr (acc : list (ascii + N))
| LNum (acc : list ascii).

Definition num_token (acc : list ascii) : option token :=
  '(m, e) ← number_of (rev acc); Some (TNum m e).

Definition str_token (acc : list (ascii + N)) : token :=
  TStr (string_of_list_ascii (string_bytes (rev acc))).

Definition is_word (w : string) (a b c : ascii) : bool :=
  String.eqb w (String a (String b (String c ""))).

Fixpoint lex (m : lex_mode) (cs : list ascii) {struct cs} : option (list token) :=
  match cs with
  | [] =>
      match m with
      | LTop => Some []
      | LStr _ => None
      | LNum acc => t ← num_token acc; Some [t]
      end
  | c :: cs' =>
      let top (_ : unit) : option (list token) :=
        if is_ws c then lex LTop cs'
        else if Ascii.eqb c "{" then cons TLBrace <$> lex LTop cs'
        else if Ascii.eqb c "}" then cons TRBrace <$> lex LTop cs'
        else if Ascii.eqb c "[" then cons TLBracket <$> lex LTop cs'
        else if Ascii.eqb c "]" then cons TRBracket <$> lex LTop cs'
        else if Ascii.eqb c ":" then cons TColon <$> lex LTop cs'
        else if Ascii.eqb c "," then cons TComma <$> lex LTop cs'
        else if Ascii.eqb c "034" then lex (LStr []) cs'
        else if is_digit c || Ascii.eqb c "-" then lex (LNum [c]) cs'
        else if Ascii.eqb c "t" then
          match cs' with
          | x :: y :: z :: rest =>
              if is_word "rue" x y z then cons TTrue <$> lex LTop rest else None
          | _ => None
          end
        else if Ascii.eqb c "n" then
          match cs' with
          | x :: y :: z :: rest =>
              if is_word "ull" x y z then cons TNull <$> lex LTop rest else None
          | _ => None
          end
        else if Ascii.eqb c "f" then
          match cs' with
          | w :: x :: y :: z :: rest =>
              if Ascii.eqb w "a" && is_word "lse" x y z
              then cons TFalse <$> lex LTop rest else None
          | _ => None
          end
        else None in
      match m with
      | LTop => top ()
      | LNum acc =>
          if is_num_char c then lex (LNum (c :: acc)) cs'
          else t ← num_token acc; cons t <$> top ()
      | LStr acc =>
          if Ascii.eqb c "034" then cons (str_token acc) <$> lex LTop cs'
          else if Ascii.eqb c "\" then
            match cs' with
            | [] => None
            | x :: rest =>
                if Ascii.eqb x "u" then
                  match rest with
                  | h1 :: h2 :: h3 :: h4 :: rest' =>
                      u ← hex4 h1 h2 h3 h4; lex (LStr (inr u :: acc)) rest'
                  | _ => None
                  end
                else y ← simple_escape x; lex (LStr (inl y :: acc)) rest
            end
          else if (code c <? 32)%N then None
          else lex (LStr (inl c :: acc)) cs'
      end
  end.

(** A container under construction: an array with its elements so far
    (last first), or an object with its fields so far and the key whose
    value is being read. *)
Inductive frame : Type :=
| FArr (acc : list value)
| FObj (fields : list (string * value)) (key : option string).

Inductive pstate : Type :=
| PValue             (* a value must follow *)
| PArrOpen           (* after an opening bracket: a value or the end *)
| PObjOpen           (* after an opening brace: a key or the end *)
| PKey               (* after a comma in an object: a key *)
| PColon (k : string) (* after a key: a colon *)
| PDone (v : value). (* after a value: a comma, a closing token, the end *)

Definition starts_value (st : pstate) : bool :=
  match st with
  | PValue | PArrOpen => true
  | _ => false
  end.

Definition step (st : pstate) (stack : list frame) (t : token)
  : option (pstate * list frame) :=
  match t with
  | TStr s =>
      match st with
      | PValue | PArrOpen => Some (PDone (VStr s), stack)
      | PObjOpen | PKey => Some (PColon s, stack)
      | _ => None
      end
  | TNum m e => if starts_value st then Some (PDone (VNum m e), stack) else None
  | TTrue => if starts_value st then Some (PDone (VBool true), stack) else None
  | TFalse => if starts_value st then Some (PDone (VBool false), stack) else None
  | TNull => if starts_value st then Some (PDone VNull, stack) else None
  | TLBracket => if starts_value st then Some (PArrOpen, FArr [] :: stack) else None
  | TLBrace => if starts_value st then Some (PObjOpen, FObj [] None :: stack) else None
  | TColon =>
      match st, stack with
      | PColon k, FObj fields None :: stack' => Some (PValue, FObj fields (Some k) :: stack')
      | _, _ => None
      end
  | TComma =>
      match st, stack with
      | PDone v, FArr acc :: stack' => Some (PValue, FArr (v :: acc) :: stack')
      | PDone v, FObj fields (Some k) :: stack' =>
          Some (PKey, FObj (obj_set fields k v) None :: stack')
      | _, _ => None
      end
  | TRBracket =>
      match st, stack with
      | PArrOpen, FArr [] :: stack' => Some (PDone (VArr []), stack')
      | PDone v, FArr acc :: stack' => Some (PDone (VArr (rev (v :: acc))), stack')
      | _, _ => None
      end
  | TRBrace =>
      match st, stack with
      | PObjOpen, FObj [] None :: stack' => Some (PDone (VObj []), stack')
      | PDone v, FObj fields (Some k) :: stack' =>
          Some (PDone (VObj (obj_set fields k v)), stack')
      | _, _ => None
      end
  end.

Fixpoint run (st : pstate) (stack : list frame) (ts : list token) : option value :=
  match ts with
  | [] =>
      match st, stack with
      | PDone v, [] => Some v
      | _, _ => None
      end
  | t :: ts' => '(st', stack') ← step st stack t; run st' stack' ts'
  end.

(** What the recogniser holds while it runs has no undefined inside. *)
Definition frame_defined (f : frame) : bool :=
  match f with
  | FArr acc => forallb defined acc
  | FObj fields _ => forallb (fun kv => defined kv.2) fields
  end.

Definition pstate_defined (st : pstate) : bool :=
  match st with
  | PDone v => defined v
  | _ => true
  end.

(** [JSON.parse(text)]: the value, or nothing where JavaScript throws a
    SyntaxError. *)
Definition parse (text : string) : option value :=
  ts ← lex LTop (list_ascii_of_string text); run PValue [] ts.

(** Test texts are written with single quotes standing for double ones. *)
Definition q (s : string) : string :=
  string_of_list_ascii
    (map (fun c => if Ascii.eqb c "'" then "034"%char else c) (list_ascii_of_string s)).

End JSON.

(** ** Effects

    What the code does to the outside world is kept as a trace of events, in
    the order they happen; a thrown exception ends the trace. *)

Module Effects.
Import JS.

(** The error object the OAuth client hands to the callback of [get]: a
    status code and, when the provider answered, the response body. *)
Record OAuthError : Type := mkOAuthError {
  statusCode : Z;
  data : option string
}.

(** Modelled from the spec: lib/errors/apierror.js is not among the sources;
    an APIError is a constructed error value with the two fields message
    and code, built from the arguments of the constructor.  The other two
    are the InternalOAuthError of passport-oauth1 and the built-in Error. *)
Inductive error : Type :=
| APIError (message code : value)
| InternalOAuthError (message : string) (err : OAuthError)
| Error (message : string).

Definition error_message (e : error) : value :=
  match e with
  | APIError m _ => m
  | InternalOAuthError m _ | Error m => VStr m
  end.

Definition error_code (e : error) : value :=
  match e with
  | APIError _ c => c
  | _ => VUndefined
  end.

Record request : Type := mkRequest {
  query : value
}.

Inductive event : Type :=
| OAuthGet (url token tokenSecret : string)
    (* this._oauth.get(url, token, tokenSecret, callback): the network call *)
| ConsoleLog (args : list value)
| Done (err : option error) (profile : option value)
    (* done(err) and done(null, profile) *)
| Fail
    (* this.fail() *)
| SuperAuthenticate (req : request) (options : value).
    (* OAuthStrategy.prototype.authenticate.call(this, req, options) *)

Definition M (A : Type) : Type := list event * result A.

Definition ret {A} (x : A) : M A := ([], inr x).

Definition throw {A} (ex : exn) : M A := ([], inl ex).

Definition bind {A B} (m : M A) (f : A → M B) : M B :=
  match m with
  | (tr, inl ex) => (tr, inl ex)
  | (tr, inr x) => let '(tr', r) := f x in ((tr ++ tr')%list, r)
  end.

Definition emit (e : event) : M unit := ([e], inr tt).

Definition lift {A} (r : result A) : M A := ([], r).

Definition trace {A} (m : M A) : list event := m.1.

Definition outcome {A} (m : M A) : result A := m.2.

Definition is_network (e : event) : bool :=
  match e with
  | OAuthGet _ _ _ => true
  | _ => false
  end.

Definition is_delegation (e : event) : bool :=
  match e with
  | SuperAuthenticate _ _ => true
  | _ => false
  end.

Definition is_done (e : event) : bool :=
  match e with
  | Done _ _ => true
  | _ => false
  end.

End Effects.

Notation "x <- m ;; k" := (Effects.bind m (fun x => k))
  (at level 100, m at next level, right associativity).
Notation "m ;;; k" := (Effects.bind m (fun _ => k))
  (at level 100, right associativity).

(** ** lib/profile.js *)

Module Profile.
Import JS Effects.

Definition parse (json : value) : M value :=
  json <- match json with
          | VStr text =>
              match JSON.parse text with
              | Some j => ret j
              | None => throw SyntaxError
              end
          | _ => ret json
          end ;;
  emit (ConsoleLog [VStr "inside profile.js: "; json]) ;;;
  let profile := VObj [] in
  results <- lift (get_prop json "results") ;;
  first <- lift (get_index results 0) ;;
  user_id <- lift (get_prop first "user_id") ;;
  profile <- lift (set_prop profile "id" user_id) ;;
  results <- lift (get_prop json "results") ;;
  first <- lift (get_index results 0) ;;
  login_name <- lift (get_prop first "login_name") ;;
  profile <- lift (set_prop profile "username" login_name) ;;
  results <- lift (get_prop json "results") ;;
  first <- lift (get_index results 0) ;;
  primary_email <- lift (get_prop first "primary_email") ;;
  profile <- lift (set_prop profile "emails" primary_email) ;;
  ret profile.

End Profile.

(** ** lib/strategy.js *)

Module EtsyStrategy.
Import JS Effects.

(** The options object of the constructor.  An absent string or list is
    [None]; [skipExtendedUserProfile] is whatever value the caller put
    there, [VUndefined] when absent. *)
Record Options : Type := mkOptions {
  requestTokenURL : option string;
  accessTokenURL : option string;
  userAuthorizationURL : option string;
  sessionKey : option string;
  scope : option (list string);
  consumerKey : option string;
  consumerSecret : option string;
  callbackURL : option string;
  userProfileURL : option string;
  skipExtendedUserProfile : value
}.

(** The object literal with no property. *)
Definition no_options : Options :=
  mkOptions None None None None None None None None None VUndefined.

Definition set_requestTokenURL (o : Options) (u : string) : Options :=
  mkOptions (Some u) (accessTokenURL o) (userAuthorizationURL o) (sessionKey o)
    (scope o) (consumerKey o) (consumerSecret o) (callbackURL o)
    (userProfileURL o) (skipExtendedUserProfile o).

Definition set_accessTokenURL (o : Options) (u : string) : Options :=
  mkOptions (requestTokenURL o) (Some u) (userAuthorizationURL o) (sessionKey o)
    (scope o) (consumerKey o) (consumerSecret o) (callbackURL o)
    (userProfileURL o) (skipExtendedUserProfile o).

Definition set_userAuthorizationURL (o : Options) (u : string) : Options :=
  mkOptions (requestTokenURL o) (accessTokenURL o) (Some u) (sessionKey o)
    (scope o) (consumerKey o) (consumerSecret o) (callbackURL o)
    (userProfileURL o) (skipExtendedUserProfile o).

Definition set_sessionKey (o : Options) (k : string) : Options :=
  mkOptions (requestTokenURL o) (accessTokenURL o) (userAuthorizationURL o) (Some k)
    (scope o) (consumerKey o) (consumerSecret o) (callbackURL o)
    (userProfileURL o) (skipExtendedUserProfile o).

(** [s || d] for a string property that may be absent: the empty string is
    falsy as well. *)
Definition or_default (s : option string) (d : string) : string :=
  match s with
  | Some u => if truthy (VStr u) then u else d
  | None => d
  end.

(** The [for] loop of the constructor: [n] iterations are left, [i] is the
    loop variable. *)
Fixpoint scope_loop (scope : list string) (n i : nat) (scopeString : string) : string :=
  match n with
  | O => scopeString
  | S n' =>
      let scopeString := scopeString ++ default "undefined" (scope !! i) in
      let scopeString :=
        if (i <? List.length scope - 1)%nat then scopeString ++ "%20" else scopeString in
      scope_loop scope n' (S i) scopeString
  end.

(** The constructor up to the call of the base constructor, as the
    assignments it makes to the properties of [options].  A property that
    is read into a concatenation while absent reads as undefined. *)
Definition configure (o : Options) : Options :=
  let o := set_requestTokenURL o
             (or_default (requestTokenURL o) "https://openapi.etsy.com/v2/oauth/request_token") in
  let o := set_accessTokenURL o
             (or_default (accessTokenURL o) "https://openapi.etsy.com/v2/oauth/access_token") in
  let o := set_userAuthorizationURL o
             (or_default (userAuthorizationURL o) "https://www.etsy.com/oauth/signin") in
  let o := set_sessionKey o (or_default (sessionKey o) "oauth:etsy") in
  match scope o with
  | Some sc =>
      if (0 <? List.length sc)%nat then
        let scopeString := scope_loop sc (List.length sc) 0 "?scope=" in
        set_requestTokenURL o (default "undefined" (requestTokenURL o) ++ scopeString)
      else o
  | None => o
  end.

(** Objects live in a store and are passed by reference. *)
Abbreviation loc := positive.
Abbreviation heap := (gmap positive Options).

Section WithVerify.

(** The verify callback is a function of the application. *)
Context {V : Type}.

(** A strategy object.  The base constructor of passport-oauth1 is outside
    this repository: what it is given, the options object as it stands at
    the call and the verify callback, is kept in the first two fields. *)
Record strategy : Type := mkStrategy {
  oauth_options : Options;
  oauth_verify : V;
  name : string;
  _userProfileURL : string;
  _skipExtendedUserProfile : value
}.

(** [new Strategy(options, verify)].  [options] is a reference into the
    store, where a reference always points to an object, or [None] when the
    argument is left out, and then a new empty object is allocated.  The
    assignments go to the object in the store. *)
Definition Strategy (h : heap) (options : option loc) (verify : V) : heap * strategy :=
  let '(h, l) :=
    match options with
    | Some l => (h, l)
    | None => let l := fresh (dom h) in (<[l := no_options]> h, l)
    end in
  let o := configure (default no_options (h !! l)) in
  let h := <[l := o]> h in
  (h,
   {| oauth_options := o;
      oauth_verify := verify;
      name := "etsy";
      _userProfileURL := or_default (userProfileURL o) "https://openapi.etsy.com/v2/users/__SELF__";
      _skipExtendedUserProfile :=
        match skipExtendedUserProfile o with
        | VUndefined => VBool false
        | v => v
        end |}).

Definition authenticate (self : strategy) (req : request) (options : value) : M unit :=
  denied <- (if truthy (query req) then lift (get_prop (query req) "denied")
             else ret (query req)) ;;
  if truthy denied then emit Fail
  else emit (SuperAuthenticate req options).

(** What the OAuth client answers: the callback of [get] is called once,
    with an error or with the body of the response. *)
Inductive response : Type :=
| Failure (err : OAuthError)
| Success (body : string).

(** The callback handed to [this._oauth.get].  The variable [json] of the
    enclosing function is undefined when the callback starts. *)
Definition on_response (r : response) : M unit :=
  match r with
  | Failure err =>
      let json :=
        match data err with
        | Some d =>
            if truthy (VStr d) then default VUndefined (JSON.parse d) else VUndefined
        | None => VUndefined
        end in
      has_errors <-
        (if truthy json then
           errors <- lift (get_prop json "errors") ;;
           if truthy errors then
             len <- lift (get_prop errors "length") ;; ret (truthy len)
           else ret false
         else ret false) ;;
      if has_errors : bool then
        errors <- lift (get_prop json "errors") ;;
        e <- lift (get_index errors 0) ;;
        message <- lift (get_prop e "message") ;;
        code <- lift (get_prop e "code") ;;
        emit (Done (Some (APIError message code)) None)
      else
        emit (Done (Some (InternalOAuthError "Failed to fetch user profile" err)) None)
  | Success body =>
      match JSON.parse body with
      | None => emit (Done (Some (Error "Failed to parse user profile")) None)
      | Some json =>
          profile <- Profile.parse json ;;
          profile <- lift (set_prop profile "provider" (VStr "etsy")) ;;
          profile <- lift (set_prop profile "_raw" (VStr body)) ;;
          profile <- lift (set_prop profile "_json" json) ;;
          emit (Done None (Some profile))
      end
  end.

(** [userProfile(token, tokenSecret, params, done)].  [oauth_get] is the
    provider as seen through the OAuth client; [params] is an object. *)
Definition userProfile (self : strategy) (oauth_get : string → string → string → response)
    (token tokenSecret : string) (params : list (string * value)) : M unit :=
  if negb (truthy (_skipExtendedUserProfile self)) then
    user_id <- lift (to_string (obj_get params "user_id")) ;;
    let url := _userProfileURL self ++ "?user_id=" ++ user_id in
    emit (OAuthGet url token tokenSecret) ;;;
    on_response (oauth_get url token tokenSecret)
  else
    let profile := VObj [("provider", VStr "etsy")] in
    profile <- lift (set_prop profile "id" (obj_get params "user_id")) ;;
    profile <- lift (set_prop profile "username" (obj_get params "screen_name")) ;;
    emit (Done None (Some profile)).

Definition userAuthorizationParams (self : strategy) (options : value) : result value :=
  let params := VObj [] in
  match get_prop options "forceLogin" with
  | inl ex => inl ex
  | inr forceLogin =>
      match (if truthy forceLogin then set_prop params "force_login" forceLogin
             else inr params) with
      | inl ex => inl ex
      | inr params =>
          match get_prop options "screenName" with
          | inl ex => inl ex
          | inr screenName =>
              if truthy screenName then set_prop params "screen_name" screenName
              else inr params
          end
      end
  end.

Definition parseErrorResponse (self : strategy) (body : string) (status : Z) : error :=
  Error body.

End WithVerify.

Arguments strategy : clear implicits.

End EtsyStrategy.

(** ** Sample data *)

Module Sample.
Import JS Effects EtsyStrategy.

(** [{consumerKey: 'key', consumerSecret: 'secret'}] *)
Definition credentials : Options :=
  mkOptions None None None None None (Some "key") (Some "secret") None None VUndefined.

(** The same with [scope: ['a', 'b']]. *)
Definition scoped : Options :=
  mkOptions None None None None (Some ["a"; "b"]) (Some "key") (Some "secret")
    None None VUndefined.

(** The same with [skipExtendedUserProfile: true]. *)
Definition skipping : Options :=
  mkOptions None None None None None (Some "key") (Some "secret") None None (VBool true).

Definition store : heap := <[3%positive := skipping]> (<[2%positive := scoped]> {[1%positive := credentials]}).

(** [new Strategy(credentials, verify)] and [new Strategy(skipping, verify)],
    for a verify callback that does not matter. *)
Definition etsy : strategy unit := (Strategy store (Some 1%positive) tt).2.

Definition etsy_skipping : strategy unit := (Strategy store (Some 3%positive) tt).2.

(** A provider that gives the same answer to every request. *)
Definition answers (r : response) (url token tokenSecret : string) : response := r.

End Sample.

(** * Properties *)

Import JS Effects EtsyStrategy.

(** ** The model at work *)

Example parse_provider_response :
  JSON.parse (JSON.q " { 'count': 1, 'results': [ {'user_id': 42, 'login_name': 'bob'} ], 'pagination': {} } ")
  = Some (VObj [("count", VNum 1 0);
                ("results", VArr [VObj [("user_id", VNum 42 0); ("login_name", VStr "bob")]]);
                ("pagination", VObj [])]).
Proof. vm_compute. reflexivity. Qed.

Example parse_scalars :
  map JSON.parse ["0"; "-12.50e3"; "1E-2"; "true"; " null "; "[[], {}]"]
  = [Some (VNum 0 0); Some (VNum (-1250) 1); Some (VNum 1 (-2)); Some (VBool true);
     Some VNull; Some (VArr [VArr []; VObj []])].
Proof. vm_compute. reflexivity. Qed.

Example parse_escapes :
  JSON.parse (JSON.q "'a\nAé\/'")
  = Some (VStr (String "a" (String "010" (String "A"
            (String "195" (String "169" (String "/" ""))))))).
Proof. vm_compute. reflexivity. Qed.

Example parse_duplicate_key :
  JSON.parse (JSON.q "{'a': 1, 'b': 2, 'a': 3}") = Some (VObj [("a", VNum 3 0); ("b", VNum 2 0)]).
Proof. vm_compute. reflexivity. Qed.

Example parse_rejects :
  map (fun text => JSON.parse (JSON.q text))
    [""; "{"; "[1,]"; "{'a':1,}"; "01"; "1."; "-"; "1 2"; "{'a' 1}"; "tru"; "'a";
     "{1:2}"; "[]]"; "1e"; ".5"; "+1"; "'\x'"; "[1 2]"; "{'a':1]"; "undefined"]
  = replicate 20 None.
Proof. vm_compute. reflexivity. Qed.

Example number_strings :
  map (fun n => Number_toString n.1 n.2)
    [(42, 0); (-15, -1); (1250, 1); (1, 21); (1, -7); (123, -5); (0, 3)]%Z
  = ["42"; "-1.5"; "12500"; "1e+21"; "1e-7"; "0.00123"; "0"].
Proof. vm_compute. reflexivity. Qed.

Example strings_of_values :
  map to_string [VUndefined; VStr "42"; VArr [VNum 1 0; VNull; VStr "a"]; VObj []]
  = [inr "undefined"; inr "42"; inr "1,,a"; inr "[object Object]"].
Proof. vm_compute. reflexivity. Qed.

Example construct_default :
  (Strategy Sample.store (Some 1%positive) tt).2
  = mkStrategy
      (mkOptions (Some "https://openapi.etsy.com/v2/oauth/request_token")
         (Some "https://openapi.etsy.com/v2/oauth/access_token")
         (Some "https://www.etsy.com/oauth/signin") (Some "oauth:etsy") None
         (Some "key") (Some "secret") None None VUndefined)
      tt "etsy" "https://openapi.etsy.com/v2/users/__SELF__" (VBool false).
Proof. vm_compute. reflexivity. Qed.

Example fetch_generic_failure :
  userProfile Sample.etsy (Sample.answers (Failure (mkOAuthError 500 (Some "oops"))))
    "token" "secret" [("user_id", VStr "42")]
  = ([OAuthGet "https://openapi.etsy.com/v2/users/__SELF__?user_id=42" "token" "secret";
      Done (Some (InternalOAuthError "Failed to fetch user profile"
                    (mkOAuthError 500 (Some "oops")))) None],
     inr tt).
Proof. vm_compute. reflexivity. Qed.

Example authenticate_delegates :
  authenticate Sample.etsy (mkRequest VUndefined) (VObj [])
  = ([SuperAuthenticate (mkRequest VUndefined) (VObj [])], inr tt).
Proof. vm_compute. reflexivity. Qed.

(** ** Strings *)

Lemma append_cons (x : ascii) (a b : string) : String x a ++ b = String x (a ++ b).
Proof. reflexivity. Qed.

Lemma append_assoc (a b c : string) : (a ++ b) ++ c = a ++ (b ++ c).
Proof.
  induction a as [|x a IH]; [reflexivity|].
  rewrite !append_cons. now rewrite IH.
Qed.

Lemma append_empty_r (a : string) : a ++ "" = a.
Proof.
  induction a as [|x a IH]; [reflexivity|].
  rewrite append_cons. now rewrite IH.
Qed.

Lemma length_append (a b : string) :
  String.length (a ++ b) = (String.length a + String.length b)%nat.
Proof.
  induction a as [|x a IH]; [reflexivity|].
  rewrite append_cons. simpl. now rewrite IH.
Qed.

Lemma truthy_append (a : string) (c : ascii) (b : string) :
  truthy (VStr (a ++ String c b)) = true.
Proof. destruct a; reflexivity. Qed.

(** ** The scope loop *)

(** The loop invariant: with [done] already visited and [todo] left, the
    loop appends the elements of [todo], separated by the separator. *)
Lemma scope_loop_spec (done todo : list string) (acc : string) :
  scope_loop (done ++ todo) (List.length todo) (List.length done) acc
  = acc ++ String.concat "%20" todo.
Proof.
  revert done acc.
  induction todo as [|x todo IH]; intros done acc.
  - simpl. now rewrite append_empty_r.
  - cbn [scope_loop List.length].
    rewrite (lookup_app_r done (x :: todo)) by lia.
    rewrite Nat.sub_diag. cbn [lookup list_lookup default].
    replace (done ++ x :: todo)%list with ((done ++ [x]) ++ todo)%list
      by now rewrite <- app_assoc.
    replace (S (List.length done)) with (List.length (done ++ [x])%list)
      by (rewrite length_app; simpl; lia).
    destruct todo as [|y todo].
    + assert (Hlt : (List.length done <? List.length ((done ++ [x]) ++ [])%list - 1)%nat = false).
      { apply Nat.ltb_ge. rewrite !length_app. simpl. lia. }
      rewrite Hlt. rewrite IH. simpl. now rewrite append_empty_r.
    + assert (Hlt : (List.length done <? List.length ((done ++ [x]) ++ y :: todo)%list - 1)%nat = true).
      { apply Nat.ltb_lt. rewrite !length_app. simpl. lia. }
      rewrite Hlt. rewrite IH.
      change (String.concat "%20" (x :: y :: todo))
        with (x ++ "%20" ++ String.concat "%20" (y :: todo)).
      now rewrite !append_assoc.
Qed.

Lemma scope_string (sc : list string) :
  scope_loop sc (List.length sc) 0 "?scope=" = "?scope=" ++ String.concat "%20" sc.
Proof. exact (scope_loop_spec [] sc "?scope="). Qed.

(** ** JSON.parse *)

Lemma parse_truthy (text : string) (v : value) :
  JSON.parse text = Some v → truthy (VStr text) = true.
Proof. destruct text; [discriminate | reflexivity]. Qed.

Lemma defined_obj_set (fields : list (string * value)) (k : string) (v : value) :
  forallb (fun kv => defined kv.2) fields = true → defined v = true →
  forallb (fun kv => defined kv.2) (obj_set fields k v) = true.
Proof.
  intros Hf Hv. induction fields as [|[k' v'] rest IH]; simpl in *.
  - now rewrite Hv.
  - apply andb_prop in Hf. destruct Hf as [Hv' Hrest].
    destruct (String.eqb k' k); simpl.
    + now rewrite Hv, Hrest.
    + now rewrite Hv', IH.
Qed.

Lemma defined_rev (l : list value) :
  forallb defined l = true → forallb defined (rev l) = true.
Proof.
  rewrite !forallb_forall. intros H x Hx. apply H. now apply in_rev.
Qed.

Lemma defined_own (fields : list (string * value)) (k : string) (v : value) :
  forallb (fun kv => defined kv.2) fields = true → own fields k = Some v →
  defined v = true.
Proof.
  induction fields as [|[k' v'] rest IH]; simpl; [discriminate|].
  intros Hf Hown. apply andb_prop in Hf. destruct Hf as [Hv' Hrest].
  destruct (String.eqb k' k); [congruence | now apply IH].
Qed.

(** One token keeps the recogniser free of undefined. *)
Lemma step_defined (st st' : JSON.pstate) (stack stack' : list JSON.frame) (t : JSON.token) :
  JSON.pstate_defined st = true → forallb JSON.frame_defined stack = true →
  JSON.step st stack t = Some (st', stack') →
  JSON.pstate_defined st' = true ∧ forallb JSON.frame_defined stack' = true.
Proof.
  intros Hst Hstack Hstep. unfold JSON.step, JSON.starts_value in Hstep.
  repeat case_match; simplify_eq;
    cbn [JSON.pstate_defined JSON.frame_defined forallb defined] in *;
    repeat match goal with
           | H : _ && _ = true |- _ => apply andb_prop in H; destruct H
           end;
    split; rewrite ?andb_true_iff; repeat split;
    auto using defined_obj_set.
  apply defined_rev. cbn [forallb]. rewrite andb_true_iff. now split.
Qed.

Lemma run_defined (ts : list JSON.token) (st : JSON.pstate) (stack : list JSON.frame) (v : value) :
  JSON.pstate_defined st = true → forallb JSON.frame_defined stack = true →
  JSON.run st stack ts = Some v → defined v = true.
Proof.
  revert st stack.
  induction ts as [|t ts IH]; intros st stack Hst Hstack Hrun; simpl in Hrun.
  - destruct st, stack; try discriminate. now injection Hrun as <-.
  - destruct (JSON.step st stack t) as [[st' stack']|] eqn:Hstep; [|discriminate].
    destruct (step_defined _ _ _ _ _ Hst Hstack Hstep) as [Hst' Hstack'].
    exact (IH _ _ Hst' Hstack' Hrun).
Qed.

(** A parsed text has no undefined anywhere inside. *)
Lemma parse_defined (text : string) (v : value) :
  JSON.parse text = Some v → defined v = true.
Proof.
  unfold JSON.parse. intros H.
  destruct (JSON.lex JSON.LTop (list_ascii_of_string text)) as [ts|]; [|discriminate].
  now apply (run_defined ts JSON.PValue []).
Qed.

(** ** The profile parser *)

(** A text that parses to something other than a string is handled like
    the value it denotes. *)
Lemma parse_text (text : string) (json : value) :
  JSON.parse text = Some json → (∀ s, json ≠ VStr s) →
  Profile.parse (VStr text) = Profile.parse json.
Proof.
  intros Hp Hns. unfold Profile.parse. rewrite Hp.
  destruct json; try reflexivity. now destruct (Hns s).
Qed.

Lemma parse_object (fields rf : list (string * value)) (rest : list value) :
  own fields "results" = Some (VArr (VObj rf :: rest)) →
  Profile.parse (VObj fields)
  = ([ConsoleLog [VStr "inside profile.js: "; VObj fields]],
     inr (VObj [("id", obj_get rf "user_id");
                ("username", obj_get rf "login_name");
                ("emails", obj_get rf "primary_email")])).
Proof.
  intros H. unfold Profile.parse. simpl. unfold obj_get. rewrite H. reflexivity.
Qed.

(** Whatever the parser returns is an object with the three fields, in
    this order, and all it does besides is write to the console. *)
Lemma parse_returns (json p : value) (log : list event) :
  Profile.parse json = (log, inr p) →
  (∃ id username emails,
     p = VObj [("id", id); ("username", username); ("emails", emails)]) ∧
  existsb is_done log = false ∧ existsb is_network log = false.
Proof.
  unfold Profile.parse, bind, lift, ret, throw, emit.
  intros H. repeat case_match; simplify_eq;
    repeat match goal with
           | H : set_prop (VObj _) _ _ = inr _ |- _ =>
               cbn in H; injection H as <-
           end;
    cbn; eauto 10.
Qed.

(** All the parser does to the outside is at most one write to the
    console. *)
Lemma parse_trace (json : value) :
  trace (Profile.parse json) = [] ∨
  ∃ j, trace (Profile.parse json) = [ConsoleLog [VStr "inside profile.js: "; j]].
Proof.
  unfold Profile.parse, bind, lift, ret, throw, emit, trace.
  repeat case_match; simplify_eq; cbn; eauto.
Qed.

Lemma parse_no_done (json : value) (err : option error) (profile : option value) :
  Done err profile ∉ trace (Profile.parse json).
Proof.
  destruct (parse_trace json) as [->|[j ->]].
  - apply not_elem_of_nil.
  - intros H. apply list_elem_of_singleton in H. discriminate.
Qed.

(** ** The profile fetch *)

Lemma get_prop_some (v : value) (k : string) :
  v ≠ VNull → v ≠ VUndefined → ∃ x, get_prop v k = inr x.
Proof. intros Hn Hu. destruct v; try congruence; simpl; eauto. Qed.

Lemma userProfile_extended {V} (self : strategy V)
    (oauth_get : string → string → string → response)
    (token tokenSecret : string) (params : list (string * value)) (uid : string) :
  truthy (_skipExtendedUserProfile self) = false →
  to_string (obj_get params "user_id") = inr uid →
  let url := _userProfileURL self ++ "?user_id=" ++ uid in
  let answer := on_response (oauth_get url token tokenSecret) in
  userProfile self oauth_get token tokenSecret params
  = (OAuthGet url token tokenSecret :: trace answer, outcome answer).
Proof.
  intros Hskip Hts. unfold userProfile. rewrite Hskip, Hts. simpl.
  now destruct (on_response _) as [tr r].
Qed.

(** Run the extended fetch up to the answer of the provider. *)
Ltac fetch Hskip Hts Hget :=
  rewrite (userProfile_extended _ _ _ _ _ _ Hskip Hts); cbv zeta; rewrite Hget.

Lemma userProfile_skip {V} (self : strategy V)
    (oauth_get : string → string → string → response)
    (token tokenSecret : string) (params : list (string * value)) :
  truthy (_skipExtendedUserProfile self) = true →
  userProfile self oauth_get token tokenSecret params
  = ([Done None (Some (VObj [("provider", VStr "etsy");
                             ("id", obj_get params "user_id");
                             ("username", obj_get params "screen_name")]))],
     inr tt).
Proof.
  intros Hskip. unfold userProfile. rewrite Hskip. reflexivity.
Qed.

Lemma on_response_api_error (err : OAuthError) (d : string)
    (fields : list (string * value)) (e : value) (es : list value) (m c : value) :
  data err = Some d → JSON.parse d = Some (VObj fields) →
  own fields "errors" = Some (VArr (e :: es)) →
  get_prop e "message" = inr m → get_prop e "code" = inr c →
  on_response (Failure err) = ([Done (Some (APIError m c)) None], inr tt).
Proof.
  intros Hd Hp He Hm Hc. unfold on_response.
  rewrite Hd, (parse_truthy _ _ Hp), Hp. simpl. unfold obj_get. rewrite He. simpl.
  rewrite Hm. simpl. rewrite Hc. reflexivity.
Qed.

Lemma on_response_bad_body (body : string) :
  JSON.parse body = None →
  on_response (Success body)
  = ([Done (Some (Error "Failed to parse user profile")) None], inr tt).
Proof. intros Hp. unfold on_response. now rewrite Hp. Qed.

Lemma on_response_profile (body : string) (json id username emails : value)
    (log : list event) :
  JSON.parse body = Some json →
  Profile.parse json
  = (log, inr (VObj [("id", id); ("username", username); ("emails", emails)])) →
  on_response (Success body)
  = ((log ++ [Done None
                (Some (VObj [("id", id); ("username", username); ("emails", emails);
                             ("provider", VStr "etsy"); ("_raw", VStr body);
                             ("_json", json)]))])%list,
     inr tt).
Proof.
  intros Hp Hpp. unfold on_response. rewrite Hp. unfold bind at 1. rewrite Hpp.
  reflexivity.
Qed.

Lemma on_response_fault (body : string) (json : value) (log : list event) (ex : exn) :
  JSON.parse body = Some json → Profile.parse json = (log, inl ex) →
  on_response (Success body) = (log, inl ex).
Proof.
  intros Hp Hpp. unfold on_response. rewrite Hp. unfold bind at 1. now rewrite Hpp.
Qed.

(** ** The constructor *)

Lemma scope_configure (o : Options) : scope (configure o) = scope o.
Proof.
  unfold configure, set_sessionKey, set_userAuthorizationURL, set_accessTokenURL,
    set_requestTokenURL. cbn [scope].
  destruct (scope o) as [sc|]; [|reflexivity].
  now destruct (0 <? List.length sc)%nat.
Qed.

Lemma requestTokenURL_configure (o : Options) (sc : list string) :
  scope o = Some sc → sc ≠ [] →
  requestTokenURL (configure o)
  = Some (or_default (requestTokenURL o) "https://openapi.etsy.com/v2/oauth/request_token"
          ++ "?scope=" ++ String.concat "%20" sc).
Proof.
  intros Hsc Hne. unfold configure, set_sessionKey, set_userAuthorizationURL,
    set_accessTokenURL, set_requestTokenURL.
  cbn [scope requestTokenURL]. rewrite Hsc.
  destruct sc as [|x sc]; [congruence|].
  change (0 <? List.length (x :: sc))%nat with true. cbv iota.
  cbn [requestTokenURL default from_option]. now rewrite scope_string.
Qed.

Lemma Strategy_at {V} (h : heap) (l : loc) (o : Options) (verify : V) :
  h !! l = Some o →
  (Strategy h (Some l) verify).1 = <[l := configure o]> h ∧
  oauth_options (Strategy h (Some l) verify).2 = configure o.
Proof. intros Hl. unfold Strategy. rewrite Hl. now split. Qed.

Lemma or_default_query (base rest d : string) :
  or_default (Some (base ++ "?scope=" ++ rest)) d = base ++ "?scope=" ++ rest.
Proof.
  unfold or_default.
  change ("?scope=" ++ rest) with (String "?" ("scope=" ++ rest)).
  now rewrite truthy_append.
Qed.

(** * The claims *)

(** ** The profile parser *)

(** C1: for an input that is a JSON text or an already parsed object of the
    shape [{results: [{user_id, login_name, primary_email, ...}, ...]}],
    the parser returns a record whose id, username and emails are the
    user_id, login_name and primary_email of results[0]. *)
Theorem C1_parse_first_result (input json : value) (fields rf : list (string * value))
    (rest : list value) :
  input = json ∨ (∃ text, input = VStr text ∧ JSON.parse text = Some json) →
  json = VObj fields →
  own fields "results" = Some (VArr (VObj rf :: rest)) →
  ∃ profile,
    outcome (Profile.parse input) = inr profile ∧
    profile = VObj [("id", obj_get rf "user_id");
                    ("username", obj_get rf "login_name");
                    ("emails", obj_get rf "primary_email")] ∧
    get_prop profile "id" = get_prop (VObj rf) "user_id" ∧
    get_prop profile "username" = get_prop (VObj rf) "login_name" ∧
    get_prop profile "emails" = get_prop (VObj rf) "primary_email".
Proof.
  intros Hin -> Hres.
  assert (Hparse : Profile.parse input = Profile.parse (VObj fields)).
  { destruct Hin as [->|(text & -> & Hp)]; [reflexivity|].
    now apply parse_text. }
  rewrite Hparse, (parse_object _ _ _ Hres).
  eexists. split; [reflexivity|]. split; [reflexivity|]. now repeat split.
Qed.

Lemma C1_witness :
  ∃ profile,
    outcome (Profile.parse
               (VStr (JSON.q "{'count':1,'results':[{'user_id':42,'login_name':'bob','primary_email':'bob@x.com','creation_tsz':1413324188}],'type':'User'}")))
    = inr profile ∧
    profile = VObj [("id", VNum 42 0); ("username", VStr "bob"); ("emails", VStr "bob@x.com")].
Proof.
  destruct (C1_parse_first_result
              (VStr (JSON.q "{'count':1,'results':[{'user_id':42,'login_name':'bob','primary_email':'bob@x.com','creation_tsz':1413324188}],'type':'User'}"))
              _ _
              [("user_id", VNum 42 0); ("login_name", VStr "bob");
               ("primary_email", VStr "bob@x.com"); ("creation_tsz", VNum 1413324188 0)]
              []
              (or_intror (ex_intro _ _ (conj eq_refl eq_refl))) eq_refl eq_refl)
    as (profile & Hout & Hprofile & _).
  exists profile. split; [exact Hout | exact Hprofile].
Defined.

(** C7: a text that is not valid JSON never yields a profile: the string
    branch of the parser throws the SyntaxError of JSON.parse, and the
    extended fetch completes with the error Failed to parse user profile
    without calling the parser. *)
Theorem C7_malformed_text (text : string) :
  JSON.parse text = None →
  Profile.parse (VStr text) = ([], inl SyntaxError) ∧
  ∀ V (self : strategy V) (oauth_get : string → string → string → response)
    (token tokenSecret uid : string) (params : list (string * value)),
    truthy (_skipExtendedUserProfile self) = false →
    to_string (obj_get params "user_id") = inr uid →
    oauth_get (_userProfileURL self ++ "?user_id=" ++ uid) token tokenSecret = Success text →
    userProfile self oauth_get token tokenSecret params
    = ([OAuthGet (_userProfileURL self ++ "?user_id=" ++ uid) token tokenSecret;
        Done (Some (Error "Failed to parse user profile")) None],
       inr tt).
Proof.
  intros Hp. split.
  - unfold Profile.parse. now rewrite Hp.
  - intros V self oauth_get token tokenSecret uid params Hskip Hts Hget.
    fetch Hskip Hts Hget. now rewrite (on_response_bad_body _ Hp).
Qed.

Lemma C7_witness :
  Profile.parse (VStr (JSON.q "{'results':[{'user_id':42}]")) = ([], inl SyntaxError) ∧
  userProfile Sample.etsy (Sample.answers (Success (JSON.q "{'results':[{'user_id':42}]")))
    "token" "secret" [("user_id", VStr "42")]
  = ([OAuthGet "https://openapi.etsy.com/v2/users/__SELF__?user_id=42" "token" "secret";
      Done (Some (Error "Failed to parse user profile")) None],
     inr tt).
Proof.
  destruct (C7_malformed_text (JSON.q "{'results':[{'user_id':42}]") eq_refl) as [Hparse Hfetch].
  split; [exact Hparse|].
  exact (Hfetch unit Sample.etsy _ "token" "secret" "42" [("user_id", VStr "42")]
           eq_refl eq_refl eq_refl).
Defined.

(** C8: on a response whose results array is empty the parser faults: the
    read of a property of results[0], which is undefined, throws a
    TypeError; no profile is returned, and the fetch hands nothing to its
    completion callback. *)
Theorem C8_empty_results (input json : value) (fields : list (string * value)) :
  input = json ∨ (∃ text, input = VStr text ∧ JSON.parse text = Some json) →
  json = VObj fields →
  own fields "results" = Some (VArr []) →
  Profile.parse input = ([ConsoleLog [VStr "inside profile.js: "; json]], inl TypeError) ∧
  ∀ V (self : strategy V) (oauth_get : string → string → string → response)
    (token tokenSecret uid body : string) (params : list (string * value)),
    truthy (_skipExtendedUserProfile self) = false →
    to_string (obj_get params "user_id") = inr uid →
    oauth_get (_userProfileURL self ++ "?user_id=" ++ uid) token tokenSecret = Success body →
    JSON.parse body = Some json →
    userProfile self oauth_get token tokenSecret params
    = ([OAuthGet (_userProfileURL self ++ "?user_id=" ++ uid) token tokenSecret;
        ConsoleLog [VStr "inside profile.js: "; json]],
       inl TypeError).
Proof.
  intros Hin -> Hres.
  assert (Hobj : Profile.parse (VObj fields)
                 = ([ConsoleLog [VStr "inside profile.js: "; VObj fields]], inl TypeError)).
  { unfold Profile.parse. simpl. unfold obj_get. now rewrite Hres. }
  split.
  - destruct Hin as [->|(text & -> & Hp)]; [exact Hobj|].
    rewrite (parse_text _ _ Hp); [exact Hobj | congruence].
  - intros V self oauth_get token tokenSecret uid body params Hskip Hts Hget Hp.
    fetch Hskip Hts Hget. now rewrite (on_response_fault _ _ _ _ Hp Hobj).
Qed.

Lemma C8_witness :
  Profile.parse (VStr (JSON.q "{'count':0,'results':[]}"))
  = ([ConsoleLog [VStr "inside profile.js: ";
                  VObj [("count", VNum 0 0); ("results", VArr [])]]],
     inl TypeError).
Proof.
  exact (proj1 (C8_empty_results (VStr (JSON.q "{'count':0,'results':[]}")) _
                  [("count", VNum 0 0); ("results", VArr [])]
                  (or_intror (ex_intro _ _ (conj eq_refl eq_refl))) eq_refl eq_refl)).
Defined.

(** ** authenticate *)

(** C2: when the query object of the request carries a truthy denied
    entry, authenticate calls the failure channel and nothing else: no
    network call and no delegation to the authenticate of the OAuth1 base
    class. *)
Theorem C2_denied_fails {V} (self : strategy V) (req : request) (options : value)
    (q : list (string * value)) :
  query req = VObj q →
  truthy (obj_get q "denied") = true →
  authenticate self req options = ([Fail], inr tt) ∧
  existsb is_network (trace (authenticate self req options)) = false ∧
  existsb is_delegation (trace (authenticate self req options)) = false.
Proof.
  intros Hq Hdenied.
  assert (H : authenticate self req options = ([Fail], inr tt)).
  { unfold authenticate. rewrite Hq. simpl. now rewrite Hdenied. }
  rewrite H. now repeat split.
Qed.

Lemma C2_witness :
  authenticate Sample.etsy (mkRequest (VObj [("denied", VStr "xxx")])) (VObj [])
  = ([Fail], inr tt).
Proof.
  exact (proj1 (C2_denied_fails Sample.etsy (mkRequest (VObj [("denied", VStr "xxx")]))
                  (VObj []) [("denied", VStr "xxx")] eq_refl eq_refl)).
Defined.

(** ** userProfile without the extended fetch *)

(** C5: with the extended fetch switched off, the completion callback gets
    a profile whose id is params.user_id and whose username is
    params.screen_name, and no network call is made. *)
Theorem C5_skip_profile {V} (self : strategy V)
    (oauth_get : string → string → string → response)
    (token tokenSecret : string) (params : list (string * value)) :
  truthy (_skipExtendedUserProfile self) = true →
  ∃ profile,
    userProfile self oauth_get token tokenSecret params
    = ([Done None (Some profile)], inr tt) ∧
    get_prop profile "id" = get_prop (VObj params) "user_id" ∧
    get_prop profile "username" = get_prop (VObj params) "screen_name" ∧
    existsb is_network (trace (userProfile self oauth_get token tokenSecret params)) = false.
Proof.
  intros Hskip. rewrite (userProfile_skip self oauth_get token tokenSecret params Hskip).
  eexists. split; [reflexivity|]. now repeat split.
Qed.

Lemma C5_witness :
  ∃ profile,
    userProfile Sample.etsy_skipping (Sample.answers (Success "")) "token" "secret"
      [("user_id", VStr "42"); ("screen_name", VStr "bob")]
    = ([Done None (Some profile)], inr tt) ∧
    get_prop profile "id" = inr (VStr "42") ∧
    get_prop profile "username" = inr (VStr "bob").
Proof.
  destruct (C5_skip_profile Sample.etsy_skipping (Sample.answers (Success ""))
              "token" "secret" [("user_id", VStr "42"); ("screen_name", VStr "bob")]
              eq_refl)
    as (profile & Hrun & Hid & Hname & _).
  exists profile. split; [exact Hrun|]. split; [exact Hid | exact Hname].
Defined.

(** C10: with the extended fetch switched off, the profile has exactly the
    fields provider, id and username: no emails, no raw body, no parsed
    JSON; the profile of the extended fetch has all six. *)
Theorem C10_skip_profile_fields {V} (self : strategy V)
    (oauth_get : string → string → string → response)
    (token tokenSecret : string) (params : list (string * value)) :
  truthy (_skipExtendedUserProfile self) = true →
  (∃ fields,
     userProfile self oauth_get token tokenSecret params
     = ([Done None (Some (VObj fields))], inr tt) ∧
     keys fields = ["provider"; "id"; "username"] ∧
     own fields "emails" = None ∧
     own fields "_raw" = None ∧ own fields "_json" = None ∧
     own fields "raw" = None ∧ own fields "json" = None) ∧
  ∀ (extended : strategy V) (uid body : string) (json profile : value) (log : list event),
    truthy (_skipExtendedUserProfile extended) = false →
    to_string (obj_get params "user_id") = inr uid →
    oauth_get (_userProfileURL extended ++ "?user_id=" ++ uid) token tokenSecret
    = Success body →
    JSON.parse body = Some json →
    Profile.parse json = (log, inr profile) →
    ∃ fields',
      last (trace (userProfile extended oauth_get token tokenSecret params))
      = Some (Done None (Some (VObj fields'))) ∧
      keys fields' = ["id"; "username"; "emails"; "provider"; "_raw"; "_json"].
Proof.
  intros Hskip. split.
  - rewrite (userProfile_skip self oauth_get token tokenSecret params Hskip).
    eexists. split; [reflexivity|]. now repeat split.
  - intros extended uid body json profile log Hext Hts Hget Hp Hpp.
    destruct (parse_returns _ _ _ Hpp) as [(id & username & emails & ->) _].
    fetch Hext Hts Hget. rewrite (on_response_profile _ _ _ _ _ _ Hp Hpp).
    eexists. split.
    + unfold trace. cbn [fst]. rewrite app_comm_cons. apply last_snoc.
    + reflexivity.
Qed.

Lemma C10_witness :
  ∃ fields,
    userProfile Sample.etsy_skipping (Sample.answers (Success "")) "token" "secret"
      [("user_id", VStr "42"); ("screen_name", VStr "bob")]
    = ([Done None (Some (VObj fields))], inr tt) ∧
    keys fields = ["provider"; "id"; "username"].
Proof.
  destruct (proj1 (C10_skip_profile_fields Sample.etsy_skipping
                     (Sample.answers (Success "")) "token" "secret"
                     [("user_id", VStr "42"); ("screen_name", VStr "bob")] eq_refl))
    as (fields & Hrun & Hkeys & _).
  exists fields. split; [exact Hrun | exact Hkeys].
Defined.

(** ** userProfile with the extended fetch *)

(** The first entry of a parsed errors array is never undefined. *)
Lemma first_error_defined (d : string) (fields : list (string * value))
    (e : value) (es : list value) :
  JSON.parse d = Some (VObj fields) → own fields "errors" = Some (VArr (e :: es)) →
  e ≠ VUndefined.
Proof.
  intros Hp He Hu. apply parse_defined in Hp. cbn [defined] in Hp.
  pose proof (defined_own _ _ _ Hp He) as Hd. rewrite Hu in Hd. discriminate.
Qed.

(** C3, as stated, fails: an error body whose errors array starts with
    null parses as JSON with a non-empty errors array, and the read of
    the message of that entry throws; the completion callback is not
    called at all. *)
Lemma C3_counterexample :
  JSON.parse (JSON.q "{'errors':[null]}") = Some (VObj [("errors", VArr [VNull])]) ∧
  userProfile Sample.etsy
    (Sample.answers (Failure (mkOAuthError 400 (Some (JSON.q "{'errors':[null]}")))))
    "token" "secret" [("user_id", VStr "42")]
  = ([OAuthGet "https://openapi.etsy.com/v2/users/__SELF__?user_id=42" "token" "secret"],
     inl TypeError) ∧
  existsb is_done
    (trace (userProfile Sample.etsy
              (Sample.answers (Failure (mkOAuthError 400 (Some (JSON.q "{'errors':[null]}")))))
              "token" "secret" [("user_id", VStr "42")]))
  = false.
Proof. repeat split; vm_compute; reflexivity. Qed.

(** C3, amended: for a transport error whose body parses as JSON with a
    non-empty errors array whose first entry is not null, userProfile
    completes with the APIError built from the message and the code of
    that entry; so the body with the one error of message m and code c
    yields an error with message m and code c. *)
Theorem C3_api_error {V} (self : strategy V)
    (oauth_get : string → string → string → response)
    (token tokenSecret uid : string) (params : list (string * value)) (err : OAuthError) :
  truthy (_skipExtendedUserProfile self) = false →
  to_string (obj_get params "user_id") = inr uid →
  oauth_get (_userProfileURL self ++ "?user_id=" ++ uid) token tokenSecret = Failure err →
  (∀ (d : string) (fields : list (string * value)) (e : value) (es : list value),
     data err = Some d →
     JSON.parse d = Some (VObj fields) →
     own fields "errors" = Some (VArr (e :: es)) →
     e ≠ VNull →
     ∃ message code,
       get_prop e "message" = inr message ∧ get_prop e "code" = inr code ∧
       userProfile self oauth_get token tokenSecret params
       = ([OAuthGet (_userProfileURL self ++ "?user_id=" ++ uid) token tokenSecret;
           Done (Some (APIError message code)) None],
          inr tt)) ∧
  (data err = Some (JSON.q "{'errors':[{'message':'m','code':'c'}]}") →
   ∃ error,
     userProfile self oauth_get token tokenSecret params
     = ([OAuthGet (_userProfileURL self ++ "?user_id=" ++ uid) token tokenSecret;
         Done (Some error) None],
        inr tt) ∧
     error_message error = VStr "m" ∧ error_code error = VStr "c").
Proof.
  intros Hskip Hts Hget.
  assert (Hgen : ∀ d fields e es m c,
    data err = Some d → JSON.parse d = Some (VObj fields) →
    own fields "errors" = Some (VArr (e :: es)) →
    get_prop e "message" = inr m → get_prop e "code" = inr c →
    userProfile self oauth_get token tokenSecret params
    = ([OAuthGet (_userProfileURL self ++ "?user_id=" ++ uid) token tokenSecret;
        Done (Some (APIError m c)) None], inr tt)).
  { intros d fields e es m c Hd Hp He Hm Hc.
    fetch Hskip Hts Hget.
    now rewrite (on_response_api_error _ _ _ _ _ _ _ Hd Hp He Hm Hc). }
  split.
  - intros d fields e es Hd Hp He Hnull.
    pose proof (first_error_defined _ _ _ _ Hp He) as Hundef.
    destruct (get_prop_some e "message" Hnull Hundef) as [m Hm].
    destruct (get_prop_some e "code" Hnull Hundef) as [c Hc].
    exists m, c. split; [exact Hm|]. split; [exact Hc|].
    exact (Hgen _ _ _ _ _ _ Hd Hp He Hm Hc).
  - intros Hd. exists (APIError (VStr "m") (VStr "c")).
    split; [|now split].
    exact (Hgen _ [("errors", VArr [VObj [("message", VStr "m"); ("code", VStr "c")]])]
             (VObj [("message", VStr "m"); ("code", VStr "c")]) [] _ _
             Hd eq_refl eq_refl eq_refl eq_refl).
Qed.

Lemma C3_witness :
  ∃ error,
    userProfile Sample.etsy
      (Sample.answers
         (Failure (mkOAuthError 403 (Some (JSON.q "{'errors':[{'message':'m','code':'c'}]}")))))
      "token" "secret" [("user_id", VStr "42")]
    = ([OAuthGet "https://openapi.etsy.com/v2/users/__SELF__?user_id=42" "token" "secret";
        Done (Some error) None],
       inr tt) ∧
    error_message error = VStr "m" ∧ error_code error = VStr "c".
Proof.
  exact (proj2 (C3_api_error Sample.etsy
                  (Sample.answers
                     (Failure (mkOAuthError 403
                                 (Some (JSON.q "{'errors':[{'message':'m','code':'c'}]}")))))
                  "token" "secret" "42" [("user_id", VStr "42")]
                  (mkOAuthError 403 (Some (JSON.q "{'errors':[{'message':'m','code':'c'}]}")))
                  eq_refl eq_refl eq_refl)
               eq_refl).
Defined.

(** C6, as stated, fails: the profile of a successful fetch has no field
    named raw and none named json; the body and the parsed JSON are under
    _raw and _json. *)
Lemma C6_counterexample :
  ∃ json profile,
    JSON.parse (JSON.q "{'results':[{'user_id':42,'login_name':'bob','primary_email':'bob@x.com'}]}")
    = Some json ∧
    last (trace (userProfile Sample.etsy
                   (Sample.answers
                      (Success (JSON.q "{'results':[{'user_id':42,'login_name':'bob','primary_email':'bob@x.com'}]}")))
                   "token" "secret" [("user_id", VStr "42")]))
    = Some (Done None (Some profile)) ∧
    get_prop profile "provider" = inr (VStr "etsy") ∧
    get_prop profile "raw" = inr VUndefined ∧
    get_prop profile "json" = inr VUndefined ∧
    get_prop profile "_raw"
    = inr (VStr (JSON.q "{'results':[{'user_id':42,'login_name':'bob','primary_email':'bob@x.com'}]}")) ∧
    get_prop profile "_json" = inr json.
Proof.
  eexists. eexists. split; [vm_compute; reflexivity|].
  split; [vm_compute; reflexivity|].
  repeat split; vm_compute; reflexivity.
Qed.

(** C6, amended: for a successful fetch whose body parses as JSON, the
    profile handed to the completion callback is the one of the parser,
    its id, username and emails, extended with provider etsy, the raw body
    under _raw and the parsed JSON under _json; and one is handed whenever
    the parser returns. *)
Theorem C6_extended_profile {V} (self : strategy V)
    (oauth_get : string → string → string → response)
    (token tokenSecret uid body : string) (params : list (string * value))
    (json : value) :
  truthy (_skipExtendedUserProfile self) = false →
  to_string (obj_get params "user_id") = inr uid →
  oauth_get (_userProfileURL self ++ "?user_id=" ++ uid) token tokenSecret = Success body →
  JSON.parse body = Some json →
  (∀ err profile,
     Done err profile ∈ trace (userProfile self oauth_get token tokenSecret params) →
     err = None ∧
     ∃ id username emails,
       outcome (Profile.parse json)
       = inr (VObj [("id", id); ("username", username); ("emails", emails)]) ∧
       profile = Some (VObj [("id", id); ("username", username); ("emails", emails);
                             ("provider", VStr "etsy"); ("_raw", VStr body);
                             ("_json", json)])) ∧
  (∀ log parsed,
     Profile.parse json = (log, inr parsed) →
     ∃ id username emails,
       parsed = VObj [("id", id); ("username", username); ("emails", emails)] ∧
       userProfile self oauth_get token tokenSecret params
       = (OAuthGet (_userProfileURL self ++ "?user_id=" ++ uid) token tokenSecret
            :: log ++
            [Done None
               (Some (VObj [("id", id); ("username", username); ("emails", emails);
                            ("provider", VStr "etsy"); ("_raw", VStr body);
                            ("_json", json)]))],
          inr tt)).
Proof.
  intros Hskip Hts Hget Hp.
  assert (Hreturns : ∀ log parsed,
    Profile.parse json = (log, inr parsed) →
    ∃ id username emails,
      parsed = VObj [("id", id); ("username", username); ("emails", emails)] ∧
      userProfile self oauth_get token tokenSecret params
      = (OAuthGet (_userProfileURL self ++ "?user_id=" ++ uid) token tokenSecret
           :: log ++
           [Done None
              (Some (VObj [("id", id); ("username", username); ("emails", emails);
                           ("provider", VStr "etsy"); ("_raw", VStr body);
                           ("_json", json)]))],
         inr tt)).
  { intros log parsed Hpp.
    destruct (parse_returns _ _ _ Hpp) as [(id & username & emails & ->) _].
    exists id, username, emails. split; [reflexivity|].
    fetch Hskip Hts Hget. now rewrite (on_response_profile _ _ _ _ _ _ Hp Hpp). }
  split; [|exact Hreturns].
  intros err profile Hin.
  pose proof (parse_no_done json err profile) as Hlog.
  destruct (Profile.parse json) as [log [ex|parsed]] eqn:Hpp.
  - exfalso. apply Hlog.
    rewrite (userProfile_extended self oauth_get token tokenSecret params uid Hskip Hts)
      in Hin.
    cbv zeta in Hin. rewrite Hget, (on_response_fault _ _ _ _ Hp Hpp) in Hin.
    unfold trace in *. cbn [fst] in *.
    apply elem_of_cons in Hin. destruct Hin as [Hin|Hin]; [discriminate | exact Hin].
  - destruct (Hreturns log parsed eq_refl) as (id & username & emails & -> & Hrun).
    rewrite Hrun in Hin. unfold trace in *. cbn [fst] in *.
    apply elem_of_cons in Hin. destruct Hin as [Hin|Hin]; [discriminate|].
    apply elem_of_app in Hin. destruct Hin as [Hin|Hin]; [now destruct (Hlog Hin)|].
    apply list_elem_of_singleton in Hin. injection Hin as -> ->.
    split; [reflexivity|]. exists id, username, emails. now split.
Qed.

Lemma C6_witness :
  ∃ id username emails,
    VObj [("id", VStr "42"); ("username", VStr "bob"); ("emails", VStr "bob@x.com")]
    = VObj [("id", id); ("username", username); ("emails", emails)] ∧
    userProfile Sample.etsy
      (Sample.answers
         (Success (JSON.q "{'results':[{'user_id':'42','login_name':'bob','primary_email':'bob@x.com'}]}")))
      "token" "secret" [("user_id", VStr "42")]
    = (OAuthGet "https://openapi.etsy.com/v2/users/__SELF__?user_id=42" "token" "secret"
         :: [ConsoleLog
               [VStr "inside profile.js: ";
                VObj [("results",
                       VArr [VObj [("user_id", VStr "42"); ("login_name", VStr "bob");
                                   ("primary_email", VStr "bob@x.com")]])]]] ++
         [Done None
            (Some (VObj [("id", id); ("username", username); ("emails", emails);
                         ("provider", VStr "etsy");
                         ("_raw", VStr (JSON.q "{'results':[{'user_id':'42','login_name':'bob','primary_email':'bob@x.com'}]}"));
                         ("_json",
                          VObj [("results",
                                 VArr [VObj [("user_id", VStr "42"); ("login_name", VStr "bob");
                                             ("primary_email", VStr "bob@x.com")]])])]))],
       inr tt).
Proof.
  exact (proj2 (C6_extended_profile Sample.etsy
                  (Sample.answers
                     (Success (JSON.q "{'results':[{'user_id':'42','login_name':'bob','primary_email':'bob@x.com'}]}")))
                  "token" "secret" "42"
                  (JSON.q "{'results':[{'user_id':'42','login_name':'bob','primary_email':'bob@x.com'}]}")
                  [("user_id", VStr "42")] _
                  eq_refl eq_refl eq_refl eq_refl)
               _ _ eq_refl).
Defined.

(** ** The scope of the constructor *)

(** C4: with a non-empty scope list the constructor appends to the
    request-token URL the text ?scope= followed by the scopes joined by
    %20, in the options object and in what the base constructor is given;
    with the scopes a and b the URL ends in ?scope=a%20b. *)
Theorem C4_scope_query {V} (h : heap) (l : loc) (o : Options) (sc : list string)
    (verify : V) :
  h !! l = Some o → scope o = Some sc → sc ≠ [] →
  let base :=
    or_default (requestTokenURL o) "https://openapi.etsy.com/v2/oauth/request_token" in
  let built := Strategy h (Some l) verify in
  requestTokenURL (oauth_options built.2)
  = Some (base ++ "?scope=" ++ String.concat "%20" sc) ∧
  requestTokenURL <$> built.1 !! l
  = Some (Some (base ++ "?scope=" ++ String.concat "%20" sc)) ∧
  (sc = ["a"; "b"] →
   requestTokenURL (oauth_options built.2) = Some (base ++ "?scope=a%20b")).
Proof.
  intros Hl Hsc Hne base built.
  destruct (Strategy_at h l o verify Hl) as [Hheap Hopts].
  assert (Hurl := requestTokenURL_configure o sc Hsc Hne).
  subst built. rewrite Hheap, Hopts, lookup_insert_eq. cbn [fmap option_fmap option_map].
  rewrite Hurl. split; [reflexivity|]. split; [reflexivity|].
  now intros ->.
Qed.

Lemma C4_witness :
  requestTokenURL (oauth_options (Strategy Sample.store (Some 2%positive) tt).2)
  = Some "https://openapi.etsy.com/v2/oauth/request_token?scope=a%20b".
Proof.
  assert (Hne : ["a"; "b"] ≠ @nil string) by discriminate.
  exact (proj2 (proj2 (C4_scope_query Sample.store 2%positive Sample.scoped ["a"; "b"] tt
                         eq_refl eq_refl Hne))
           eq_refl).
Defined.

(** C9: the scope step is not idempotent.  Two constructions from the same
    options object, with a non-empty scope list, leave a request-token URL
    with the scope query appended twice: the first construction writes its
    URL into the shared object and the second one starts from it. *)
Theorem C9_scope_appended_twice {V} (h : heap) (l : loc) (o : Options) (sc : list string)
    (verify verify' : V) :
  h !! l = Some o → scope o = Some sc → sc ≠ [] →
  let base :=
    or_default (requestTokenURL o) "https://openapi.etsy.com/v2/oauth/request_token" in
  let query := "?scope=" ++ String.concat "%20" sc in
  let first := Strategy h (Some l) verify in
  let second := Strategy first.1 (Some l) verify' in
  requestTokenURL (oauth_options first.2) = Some (base ++ query) ∧
  requestTokenURL (oauth_options second.2) = Some (base ++ query ++ query) ∧
  requestTokenURL <$> second.1 !! l = Some (Some (base ++ query ++ query)) ∧
  requestTokenURL (oauth_options second.2) ≠ requestTokenURL (oauth_options first.2).
Proof.
  intros Hl Hsc Hne base query first second.
  destruct (Strategy_at h l o verify Hl) as [Hheap Hopts].
  assert (Hurl : requestTokenURL (configure o) = Some (base ++ query))
    by exact (requestTokenURL_configure o sc Hsc Hne).
  assert (Hl' : first.1 !! l = Some (configure o)).
  { subst first. rewrite Hheap. apply lookup_insert_eq. }
  destruct (Strategy_at first.1 l (configure o) verify' Hl') as [Hheap' Hopts'].
  assert (Hurl' : requestTokenURL (configure (configure o)) = Some (base ++ query ++ query)).
  { rewrite (requestTokenURL_configure (configure o) sc);
      [|now rewrite scope_configure|exact Hne].
    rewrite Hurl. subst query. rewrite or_default_query.
    now rewrite append_assoc. }
  subst second. rewrite Hheap', Hopts', lookup_insert_eq.
  cbn [fmap option_fmap option_map]. subst first. rewrite Hopts, Hurl, Hurl'.
  repeat split.
  intros Heq. injection Heq as Heq. apply (f_equal String.length) in Heq.
  rewrite !length_append in Heq. subst query.
  change ("?scope=" ++ String.concat "%20" sc)
    with (String "?" ("scope=" ++ String.concat "%20" sc)) in Heq.
  cbn [String.length] in Heq. lia.
Qed.

Lemma C9_witness :
  requestTokenURL
    (oauth_options
       (Strategy (Strategy Sample.store (Some 2%positive) tt).1 (Some 2%positive) tt).2)
  = Some "https://openapi.etsy.com/v2/oauth/request_token?scope=a%20b?scope=a%20b".
Proof.
  assert (Hne : ["a"; "b"] ≠ @nil string) by discriminate.
  exact (proj1 (proj2 (C9_scope_appended_twice Sample.store 2%positive Sample.scoped
                         ["a"; "b"] tt tt eq_refl eq_refl Hne))).
Defined.

(** * Further properties *)

(** ** Completion *)

Lemma filter_none {A} (p : A → bool) (l : list A) :
  existsb p l = false → List.filter p l = [].
Proof.
  induction l as [|x l IH]; [reflexivity|]. simpl.
  destruct (p x); [discriminate | exact IH].
Qed.

Lemma parse_quiet (json : value) :
  existsb is_done (trace (Profile.parse json)) = false ∧
  existsb is_network (trace (Profile.parse json)) = false.
Proof. destruct (parse_trace json) as [->|[j ->]]; now split. Qed.

(** The callback of the fetch either ends with one call of done and has
    made none before, or throws without any. *)
Lemma on_response_shape (r : response) :
  (∃ pre err profile,
     on_response r = ((pre ++ [Done err profile])%list, inr tt) ∧
     existsb is_done pre = false ∧ existsb is_network pre = false) ∨
  (∃ ex,
     outcome (on_response r) = inl ex ∧
     existsb is_done (trace (on_response r)) = false ∧
     existsb is_network (trace (on_response r)) = false).
Proof.
  destruct r as [err|body].
  - unfold on_response, bind, lift, ret, emit, outcome, trace.
    repeat case_match; simplify_eq; cbn;
      try (left; exists []; eauto 10; fail); right; eauto.
  - unfold on_response.
    destruct (JSON.parse body) as [json|]; [|left; exists []; eauto 10].
    destruct (parse_quiet json) as [Hd Hn].
    destruct (Profile.parse json) as [log [ex|parsed]] eqn:Hpp.
    + right. exists ex. now repeat split.
    + destruct (parse_returns _ _ _ Hpp) as [(id & username & emails & ->) _].
      left. exists log. eauto 10.
Qed.

(** X1: userProfile calls its completion callback exactly once, as the
    last thing it does, unless an exception escapes, and then it has not
    called it at all. *)
Theorem X1_done_exactly_once {V} (self : strategy V)
    (oauth_get : string → string → string → response)
    (token tokenSecret : string) (params : list (string * value)) :
  (∃ pre err profile,
     userProfile self oauth_get token tokenSecret params
     = ((pre ++ [Done err profile])%list, inr tt) ∧
     existsb is_done pre = false) ∨
  (∃ ex,
     outcome (userProfile self oauth_get token tokenSecret params) = inl ex ∧
     existsb is_done (trace (userProfile self oauth_get token tokenSecret params)) = false).
Proof.
  destruct (truthy (_skipExtendedUserProfile self)) eqn:Hskip.
  - left. rewrite (userProfile_skip self oauth_get token tokenSecret params Hskip).
    exists []. eauto.
  - destruct (to_string (obj_get params "user_id")) as [ex|uid] eqn:Hts.
    + right. exists ex. unfold userProfile. rewrite Hskip, Hts. now split.
    + rewrite (userProfile_extended self oauth_get token tokenSecret params uid Hskip Hts).
      cbv zeta.
      destruct (on_response_shape
                  (oauth_get (_userProfileURL self ++ "?user_id=" ++ uid) token tokenSecret))
        as [(pre & err & profile & -> & Hd & _)|(ex & Hex & Hd & _)].
      * left. exists (OAuthGet (_userProfileURL self ++ "?user_id=" ++ uid) token tokenSecret
                        :: pre), err, profile.
        split; [reflexivity | exact Hd].
      * right. exists ex. split; [exact Hex | exact Hd].
Qed.

(** X2: the extended fetch makes exactly one network call, before anything
    else, to the profile URL followed by ?user_id= and the user id of the
    parameters, with the token and the secret it was given. *)
Theorem X2_one_network_call {V} (self : strategy V)
    (oauth_get : string → string → string → response)
    (token tokenSecret uid : string) (params : list (string * value)) :
  truthy (_skipExtendedUserProfile self) = false →
  to_string (obj_get params "user_id") = inr uid →
  ∃ rest,
    trace (userProfile self oauth_get token tokenSecret params)
    = OAuthGet (_userProfileURL self ++ "?user_id=" ++ uid) token tokenSecret :: rest ∧
    existsb is_network rest = false.
Proof.
  intros Hskip Hts.
  rewrite (userProfile_extended self oauth_get token tokenSecret params uid Hskip Hts).
  cbv zeta. eexists. split; [reflexivity|].
  destruct (on_response_shape
              (oauth_get (_userProfileURL self ++ "?user_id=" ++ uid) token tokenSecret))
    as [(pre & err & profile & -> & _ & Hn)|(ex & _ & _ & Hn)]; [|exact Hn].
  unfold trace. cbn [fst]. rewrite existsb_app, Hn. reflexivity.
Qed.

Lemma X2_witness :
  ∃ rest,
    trace (userProfile Sample.etsy (Sample.answers (Success "[]")) "token" "secret"
             [("user_id", VNum 42 0)])
    = OAuthGet "https://openapi.etsy.com/v2/users/__SELF__?user_id=42" "token" "secret"
        :: rest ∧
    existsb is_network rest = false.
Proof.
  exact (X2_one_network_call Sample.etsy (Sample.answers (Success "[]")) "token" "secret"
           "42" [("user_id", VNum 42 0)] eq_refl eq_refl).
Defined.

(** ** Transport errors *)

Lemma on_response_generic (err : OAuthError) :
  data err = None ∨
  (∃ d, data err = Some d ∧
        (JSON.parse d = None ∨
         ∃ json, JSON.parse d = Some json ∧
                 ((∀ fields, json ≠ VObj fields) ∨
                  ∃ fields, json = VObj fields ∧
                            (truthy (obj_get fields "errors") = false ∨
                             obj_get fields "errors" = VArr [])))) →
  on_response (Failure err)
  = ([Done (Some (InternalOAuthError "Failed to fetch user profile" err)) None], inr tt).
Proof.
  unfold on_response.
  intros [->|(d & -> & [Hp|(json & Hp & Hjson)])]; [reflexivity| |].
  - rewrite Hp. now destruct (truthy (VStr d)).
  - rewrite (parse_truthy _ _ Hp), Hp. cbn [default from_option].
    destruct Hjson as [Hno|(fields & -> & [Hf|He])].
    + destruct json; try reflexivity.
      * now destruct b.
      * cbn. now destruct (negb (m =? 0)%Z).
      * cbn. now destruct (negb (String.eqb s "")).
      * now destruct (Hno fields).
    + cbn. now rewrite Hf.
    + cbn. now rewrite He.
Qed.

(** X3: a transport error that carries no provider errors is reported as
    the InternalOAuthError Failed to fetch user profile around the
    transport error itself: when it has no body, when the body is not JSON,
    when the JSON is not an object, and when the object has no errors, a
    falsy errors or an empty errors list. *)
Theorem X3_generic_fetch_error {V} (self : strategy V)
    (oauth_get : string → string → string → response)
    (token tokenSecret uid : string) (params : list (string * value)) (err : OAuthError) :
  truthy (_skipExtendedUserProfile self) = false →
  to_string (obj_get params "user_id") = inr uid →
  oauth_get (_userProfileURL self ++ "?user_id=" ++ uid) token tokenSecret = Failure err →
  data err = None ∨
  (∃ d, data err = Some d ∧
        (JSON.parse d = None ∨
         ∃ json, JSON.parse d = Some json ∧
                 ((∀ fields, json ≠ VObj fields) ∨
                  ∃ fields, json = VObj fields ∧
                            (truthy (obj_get fields "errors") = false ∨
                             obj_get fields "errors" = VArr [])))) →
  userProfile self oauth_get token tokenSecret params
  = ([OAuthGet (_userProfileURL self ++ "?user_id=" ++ uid) token tokenSecret;
      Done (Some (InternalOAuthError "Failed to fetch user profile" err)) None],
     inr tt).
Proof.
  intros Hskip Hts Hget Hcase. fetch Hskip Hts Hget.
  now rewrite (on_response_generic err Hcase).
Qed.

Lemma X3_witness :
  userProfile Sample.etsy
    (Sample.answers (Failure (mkOAuthError 500 (Some (JSON.q "{'errors':[]}")))))
    "token" "secret" [("user_id", VStr "42")]
  = ([OAuthGet "https://openapi.etsy.com/v2/users/__SELF__?user_id=42" "token" "secret";
      Done (Some (InternalOAuthError "Failed to fetch user profile"
                    (mkOAuthError 500 (Some (JSON.q "{'errors':[]}"))))) None],
     inr tt).
Proof.
  exact (X3_generic_fetch_error Sample.etsy
           (Sample.answers (Failure (mkOAuthError 500 (Some (JSON.q "{'errors':[]}")))))
           "token" "secret" "42" [("user_id", VStr "42")]
           (mkOAuthError 500 (Some (JSON.q "{'errors':[]}")))
           eq_refl eq_refl eq_refl
           (or_intror
              (ex_intro _ (JSON.q "{'errors':[]}")
                 (conj eq_refl
                    (or_intror
                       (ex_intro _ (VObj [("errors", VArr [])])
                          (conj eq_refl
                             (or_intror
                                (ex_intro _ [("errors", VArr [])]
                                   (conj eq_refl (or_intror eq_refl))))))))))).
Defined.

(** ** Bodies that denote a string *)

(** X4: a response body that is a JSON string literal is decoded twice,
    first by the fetch and then by the profile parser, which sees a string.
    When the text inside is not JSON the SyntaxError of the second decoding
    escapes the callback and done is never called; when it is a provider
    response, the profile is read from it and _json holds the string. *)
Theorem X4_string_body {V} (self : strategy V)
    (oauth_get : string → string → string → response)
    (token tokenSecret uid body inner : string) (params : list (string * value)) :
  truthy (_skipExtendedUserProfile self) = false →
  to_string (obj_get params "user_id") = inr uid →
  oauth_get (_userProfileURL self ++ "?user_id=" ++ uid) token tokenSecret = Success body →
  JSON.parse body = Some (VStr inner) →
  (JSON.parse inner = None →
   userProfile self oauth_get token tokenSecret params
   = ([OAuthGet (_userProfileURL self ++ "?user_id=" ++ uid) token tokenSecret],
      inl SyntaxError)) ∧
  (∀ fields rf rest,
     JSON.parse inner = Some (VObj fields) →
     own fields "results" = Some (VArr (VObj rf :: rest)) →
     userProfile self oauth_get token tokenSecret params
     = ([OAuthGet (_userProfileURL self ++ "?user_id=" ++ uid) token tokenSecret;
         ConsoleLog [VStr "inside profile.js: "; VObj fields];
         Done None
           (Some (VObj [("id", obj_get rf "user_id");
                        ("username", obj_get rf "login_name");
                        ("emails", obj_get rf "primary_email");
                        ("provider", VStr "etsy"); ("_raw", VStr body);
                        ("_json", VStr inner)]))],
        inr tt)).
Proof.
  intros Hskip Hts Hget Hp. split.
  - intros Hinner. fetch Hskip Hts Hget.
    assert (Hpp : Profile.parse (VStr inner) = ([], inl SyntaxError)).
    { unfold Profile.parse. now rewrite Hinner. }
    now rewrite (on_response_fault _ _ _ _ Hp Hpp).
  - intros fields rf rest Hinner Hres. fetch Hskip Hts Hget.
    assert (Hpp : Profile.parse (VStr inner) = Profile.parse (VObj fields)).
    { apply parse_text; [exact Hinner | congruence]. }
    rewrite (parse_object _ _ _ Hres) in Hpp.
    now rewrite (on_response_profile _ _ _ _ _ _ Hp Hpp).
Qed.

Lemma X4_witness :
  userProfile Sample.etsy (Sample.answers (Success (JSON.q "'hello'")))
    "token" "secret" [("user_id", VStr "42")]
  = ([OAuthGet "https://openapi.etsy.com/v2/users/__SELF__?user_id=42" "token" "secret"],
     inl SyntaxError).
Proof.
  exact (proj1 (X4_string_body Sample.etsy (Sample.answers (Success (JSON.q "'hello'")))
                  "token" "secret" "42" (JSON.q "'hello'") "hello" [("user_id", VStr "42")]
                  eq_refl eq_refl eq_refl eq_refl)
               eq_refl).
Defined.

(** ** The raw body and the parsed JSON *)

Lemma on_response_failure_no_profile (err : OAuthError) (e : option error)
    (profile : option value) :
  Done e profile ∈ trace (on_response (Failure err)) → profile = None.
Proof.
  unfold on_response, bind, lift, ret, emit, trace.
  repeat case_match; simplify_eq; cbn;
    intros H; repeat (apply elem_of_cons in H; destruct H as [H|H]; simplify_eq);
    try reflexivity; now apply elem_of_nil in H.
Qed.

(** X5: whatever path userProfile takes, a profile it hands over with a
    string under _raw has under _json the value that string parses to. *)
Theorem X5_raw_parses_to_json {V} (self : strategy V)
    (oauth_get : string → string → string → response)
    (token tokenSecret : string) (params : list (string * value))
    (err : option error) (profile : value) (raw : string) :
  Done err (Some profile) ∈ trace (userProfile self oauth_get token tokenSecret params) →
  get_prop profile "_raw" = inr (VStr raw) →
  ∃ json, JSON.parse raw = Some json ∧ get_prop profile "_json" = inr json.
Proof.
  intros Hin Hraw.
  destruct (truthy (_skipExtendedUserProfile self)) eqn:Hskip.
  - rewrite (userProfile_skip self oauth_get token tokenSecret params Hskip) in Hin.
    apply list_elem_of_singleton in Hin. injection Hin as _ ->. discriminate.
  - destruct (to_string (obj_get params "user_id")) as [ex|uid] eqn:Hts.
    + unfold userProfile in Hin. rewrite Hskip, Hts in Hin. now apply elem_of_nil in Hin.
    + rewrite (userProfile_extended self oauth_get token tokenSecret params uid Hskip Hts)
        in Hin.
      cbv zeta in Hin. unfold trace at 1 in Hin. cbn [fst] in Hin.
      apply elem_of_cons in Hin. destruct Hin as [Hin|Hin]; [discriminate|].
      destruct (oauth_get _ token tokenSecret) as [oerr|body].
      * apply on_response_failure_no_profile in Hin. discriminate.
      * destruct (JSON.parse body) as [json|] eqn:Hp.
        -- pose proof (parse_no_done json err (Some profile)) as Hlog.
           destruct (Profile.parse json) as [log [ex|parsed]] eqn:Hpp.
           ++ rewrite (on_response_fault _ _ _ _ Hp Hpp) in Hin. now destruct (Hlog Hin).
           ++ destruct (parse_returns _ _ _ Hpp) as [(id & username & emails & ->) _].
              rewrite (on_response_profile _ _ _ _ _ _ Hp Hpp) in Hin.
              unfold trace in *. cbn [fst] in *.
              apply elem_of_app in Hin. destruct Hin as [Hin|Hin]; [now destruct (Hlog Hin)|].
              apply list_elem_of_singleton in Hin. injection Hin as -> ->.
              injection Hraw as <-. exists json. now split.
        -- rewrite (on_response_bad_body _ Hp) in Hin.
           apply list_elem_of_singleton in Hin. discriminate.
Qed.

Lemma X5_witness :
  ∃ json,
    JSON.parse (JSON.q "{'results':[{'user_id':7}]}") = Some json ∧
    get_prop
      (VObj [("id", VNum 7 0); ("username", VUndefined); ("emails", VUndefined);
             ("provider", VStr "etsy");
             ("_raw", VStr (JSON.q "{'results':[{'user_id':7}]}"));
             ("_json", VObj [("results", VArr [VObj [("user_id", VNum 7 0)]])])])
      "_json"
    = inr json.
Proof.
  apply (X5_raw_parses_to_json Sample.etsy
           (Sample.answers (Success (JSON.q "{'results':[{'user_id':7}]}")))
           "token" "secret" [("user_id", VStr "7")] None).
  - vm_compute. apply list_elem_of_In. right. right. left. reflexivity.
  - reflexivity.
Defined.

(** ** Parameters without a user id *)

(** X6: when the parameters have no user_id, the extended fetch still goes
    out, to the profile URL followed by ?user_id=undefined, and the
    profile made without a fetch has an id field that is undefined. *)
Theorem X6_missing_user_id {V} (self : strategy V)
    (oauth_get : string → string → string → response)
    (token tokenSecret : string) (params : list (string * value)) :
  own params "user_id" = None →
  (truthy (_skipExtendedUserProfile self) = false →
   ∃ rest,
     trace (userProfile self oauth_get token tokenSecret params)
     = OAuthGet (_userProfileURL self ++ "?user_id=undefined") token tokenSecret :: rest) ∧
  (truthy (_skipExtendedUserProfile self) = true →
   userProfile self oauth_get token tokenSecret params
   = ([Done None (Some (VObj [("provider", VStr "etsy"); ("id", VUndefined);
                              ("username", obj_get params "screen_name")]))],
      inr tt)).
Proof.
  intros Hown.
  assert (Hid : obj_get params "user_id" = VUndefined) by (unfold obj_get; now rewrite Hown).
  split; intros Hskip.
  - assert (Hts : to_string (obj_get params "user_id") = inr "undefined") by now rewrite Hid.
    rewrite (userProfile_extended self oauth_get token tokenSecret params _ Hskip Hts).
    cbv zeta. eexists. reflexivity.
  - rewrite (userProfile_skip self oauth_get token tokenSecret params Hskip).
    now rewrite Hid.
Qed.

Lemma X6_witness :
  ∃ rest,
    trace (userProfile Sample.etsy (Sample.answers (Success "")) "token" "secret" [])
    = OAuthGet "https://openapi.etsy.com/v2/users/__SELF__?user_id=undefined" "token" "secret"
        :: rest.
Proof.
  exact (proj1 (X6_missing_user_id Sample.etsy (Sample.answers (Success "")) "token" "secret"
                  [] eq_refl)
               eq_refl).
Defined.

(** ** The constructor and the store *)

Lemma or_default_truthy (s : option string) (d : string) :
  truthy (VStr d) = true → truthy (VStr (or_default s d)) = true.
Proof.
  intros Hd. unfold or_default. destruct s as [u|]; [|exact Hd].
  destruct (truthy (VStr u)) eqn:Hu; [exact Hu | exact Hd].
Qed.

Lemma or_default_idem (s : option string) (d : string) :
  or_default (Some (or_default s d)) d = or_default s d.
Proof.
  unfold or_default. destruct s as [u|].
  - destruct (truthy (VStr u)) eqn:Hu; [now rewrite Hu | now destruct (truthy (VStr d))].
  - now destruct (truthy (VStr d)).
Qed.

(** The options object after the constructor, field by field. *)
Lemma configure_explicit (o : Options) :
  configure o
  = mkOptions
      (Some (or_default (requestTokenURL o) "https://openapi.etsy.com/v2/oauth/request_token"
             ++ match scope o with
                | Some (x :: sc) => scope_loop (x :: sc) (List.length (x :: sc)) 0 "?scope="
                | _ => ""
                end))
      (Some (or_default (accessTokenURL o) "https://openapi.etsy.com/v2/oauth/access_token"))
      (Some (or_default (userAuthorizationURL o) "https://www.etsy.com/oauth/signin"))
      (Some (or_default (sessionKey o) "oauth:etsy"))
      (scope o) (consumerKey o) (consumerSecret o) (callbackURL o)
      (userProfileURL o) (skipExtendedUserProfile o).
Proof.
  destruct o as [request access authorize key [[|x sc]|] ck cs cb profile skip];
    unfold configure, set_sessionKey, set_userAuthorizationURL, set_accessTokenURL,
      set_requestTokenURL;
    cbn [scope requestTokenURL accessTokenURL userAuthorizationURL sessionKey consumerKey
         consumerSecret callbackURL userProfileURL skipExtendedUserProfile];
    try (now rewrite append_empty_r).
  change (0 <? List.length (x :: sc))%nat with true. reflexivity.
Qed.

Lemma configure_without_scope (o : Options) :
  scope o = None ∨ scope o = Some [] →
  configure o
  = mkOptions
      (Some (or_default (requestTokenURL o) "https://openapi.etsy.com/v2/oauth/request_token"))
      (Some (or_default (accessTokenURL o) "https://openapi.etsy.com/v2/oauth/access_token"))
      (Some (or_default (userAuthorizationURL o) "https://www.etsy.com/oauth/signin"))
      (Some (or_default (sessionKey o) "oauth:etsy"))
      (scope o) (consumerKey o) (consumerSecret o) (callbackURL o)
      (userProfileURL o) (skipExtendedUserProfile o).
Proof.
  intros Hsc. rewrite configure_explicit.
  destruct Hsc as [-> | ->]; now rewrite append_empty_r.
Qed.

(** X7: the constructor writes to the options object it is given and to
    no other object of the store; with the options left out it writes to
    none that was there. *)
Theorem X7_store_frame {V} (h : heap) (options : option loc) (verify : V) (l' : loc) :
  is_Some (h !! l') → options ≠ Some l' →
  (Strategy h options verify).1 !! l' = h !! l'.
Proof.
  intros Hl' Hne. unfold Strategy. destruct options as [l|]; cbn [fst].
  - rewrite lookup_insert_ne; [reflexivity | congruence].
  - assert (Hfresh : fresh (dom h) ≠ l').
    { intros <-. apply (is_fresh (dom h)). now apply elem_of_dom. }
    now rewrite !lookup_insert_ne.
Qed.

Lemma X7_witness :
  (Strategy Sample.store (Some 2%positive) tt).1 !! 1%positive = Some Sample.credentials ∧
  (Strategy Sample.store None tt).1 !! 2%positive = Some Sample.scoped.
Proof.
  assert (H1 : is_Some (Sample.store !! 1%positive)) by (eexists; reflexivity).
  assert (H2 : is_Some (Sample.store !! 2%positive)) by (eexists; reflexivity).
  split.
  - exact (X7_store_frame Sample.store (Some 2%positive) tt 1%positive H1
             ltac:(discriminate)).
  - exact (X7_store_frame Sample.store None tt 2%positive H2 ltac:(discriminate)).
Defined.

Lemma configure_keeps (o : Options) :
  scope (configure o) = scope o ∧
  consumerKey (configure o) = consumerKey o ∧
  consumerSecret (configure o) = consumerSecret o ∧
  callbackURL (configure o) = callbackURL o ∧
  userProfileURL (configure o) = userProfileURL o ∧
  skipExtendedUserProfile (configure o) = skipExtendedUserProfile o.
Proof. rewrite configure_explicit. now repeat split. Qed.

Lemma configure_endpoints (o : Options) :
  ∃ request access authorize key,
    requestTokenURL (configure o) = Some request ∧
    accessTokenURL (configure o) = Some access ∧
    userAuthorizationURL (configure o) = Some authorize ∧
    sessionKey (configure o) = Some key ∧
    request ≠ "" ∧ access ≠ "" ∧ authorize ≠ "" ∧ key ≠ "".
Proof.
  assert (Hne : ∀ s d, truthy (VStr d) = true → or_default s d ≠ "").
  { intros s d Hd Heq. pose proof (or_default_truthy s d Hd) as H.
    rewrite Heq in H. discriminate. }
  rewrite configure_explicit.
  cbn [requestTokenURL accessTokenURL userAuthorizationURL sessionKey].
  do 4 eexists. repeat split; try (apply Hne; reflexivity).
  intros Heq. apply (f_equal String.length) in Heq. rewrite length_append in Heq.
  assert (Hlen : String.length
                   (or_default (requestTokenURL o)
                      "https://openapi.etsy.com/v2/oauth/request_token") ≠ 0%nat).
  { intros H0. apply (Hne (requestTokenURL o)
                        "https://openapi.etsy.com/v2/oauth/request_token" eq_refl).
    now destruct (or_default _ _). }
  cbn [String.length] in Heq. lia.
Qed.

(** X8: the constructor never touches the scope, the consumer key and
    secret, the callback URL, the profile URL and the skip flag of the
    options object, and the base constructor is given the object as it
    stands in the store. *)
Theorem X8_options_kept {V} (h : heap) (l : loc) (o : Options) (verify : V) :
  h !! l = Some o →
  let built := Strategy h (Some l) verify in
  built.1 !! l = Some (oauth_options built.2) ∧
  scope (oauth_options built.2) = scope o ∧
  consumerKey (oauth_options built.2) = consumerKey o ∧
  consumerSecret (oauth_options built.2) = consumerSecret o ∧
  callbackURL (oauth_options built.2) = callbackURL o ∧
  userProfileURL (oauth_options built.2) = userProfileURL o ∧
  skipExtendedUserProfile (oauth_options built.2) = skipExtendedUserProfile o.
Proof.
  intros Hl built. destruct (Strategy_at h l o verify Hl) as [Hheap Hopts].
  subst built. rewrite Hheap, Hopts, lookup_insert_eq.
  split; [reflexivity | exact (configure_keeps o)].
Qed.

Lemma X8_witness :
  scope (oauth_options (Strategy Sample.store (Some 2%positive) tt).2) = Some ["a"; "b"] ∧
  consumerKey (oauth_options (Strategy Sample.store (Some 2%positive) tt).2) = Some "key".
Proof.
  destruct (X8_options_kept Sample.store 2%positive Sample.scoped tt eq_refl)
    as (_ & Hscope & Hkey & _).
  split; [exact Hscope | exact Hkey].
Defined.

(** X9: after the constructor the request-token URL, the access-token URL,
    the authorization URL and the session key handed to the base
    constructor are all there and none is the empty string, whatever the
    caller passed, options or none. *)
Theorem X9_endpoints_present {V} (h : heap) (options : option loc) (verify : V) :
  ∃ request access authorize key,
    requestTokenURL (oauth_options (Strategy h options verify).2) = Some request ∧
    accessTokenURL (oauth_options (Strategy h options verify).2) = Some access ∧
    userAuthorizationURL (oauth_options (Strategy h options verify).2) = Some authorize ∧
    sessionKey (oauth_options (Strategy h options verify).2) = Some key ∧
    request ≠ "" ∧ access ≠ "" ∧ authorize ≠ "" ∧ key ≠ "".
Proof.
  unfold Strategy. destruct options as [l|]; cbn [snd oauth_options];
    apply configure_endpoints.
Qed.

(** X10: without a scope, or with an empty scope list, the request-token
    URL gets no query string, and the constructor is idempotent on the
    options object: a second construction from the same object finds it as
    the first one left it and leaves the store as it is. *)
Theorem X10_no_scope_idempotent {V} (h : heap) (l : loc) (o : Options) (verify verify' : V) :
  h !! l = Some o →
  scope o = None ∨ scope o = Some [] →
  let first := Strategy h (Some l) verify in
  let second := Strategy first.1 (Some l) verify' in
  requestTokenURL (oauth_options first.2)
  = Some (or_default (requestTokenURL o) "https://openapi.etsy.com/v2/oauth/request_token") ∧
  oauth_options second.2 = oauth_options first.2 ∧
  second.1 = first.1.
Proof.
  intros Hl Hsc first second.
  destruct (Strategy_at h l o verify Hl) as [Hheap Hopts].
  assert (Hl' : first.1 !! l = Some (configure o)).
  { subst first. rewrite Hheap. apply lookup_insert_eq. }
  destruct (Strategy_at first.1 l (configure o) verify' Hl') as [Hheap' Hopts'].
  assert (Hsc' : scope (configure o) = None ∨ scope (configure o) = Some [])
    by now rewrite scope_configure.
  assert (Hidem : configure (configure o) = configure o).
  { rewrite (configure_without_scope (configure o) Hsc').
    rewrite (configure_without_scope o Hsc).
    cbn [requestTokenURL accessTokenURL userAuthorizationURL sessionKey scope
         consumerKey consumerSecret callbackURL userProfileURL skipExtendedUserProfile].
    now rewrite !or_default_idem. }
  subst second. rewrite Hheap', Hopts', Hidem. subst first. rewrite Hopts, Hheap.
  split; [now rewrite (configure_without_scope o Hsc)|].
  split; [reflexivity|]. apply insert_insert_eq.
Qed.

Lemma X10_witness :
  requestTokenURL (oauth_options (Strategy Sample.store (Some 1%positive) tt).2)
  = Some "https://openapi.etsy.com/v2/oauth/request_token" ∧
  (Strategy (Strategy Sample.store (Some 1%positive) tt).1 (Some 1%positive) tt).1
  = (Strategy Sample.store (Some 1%positive) tt).1.
Proof.
  destruct (X10_no_scope_idempotent Sample.store 1%positive Sample.credentials tt tt
              eq_refl (or_introl eq_refl))
    as (Hurl & _ & Hstore).
  split; [exact Hurl | exact Hstore].
Defined.

(** ** From the options to the fetch *)

Lemma Strategy_fields {V} (h : heap) (l : loc) (o : Options) (verify : V) :
  h !! l = Some o →
  truthy (_skipExtendedUserProfile (Strategy h (Some l) verify).2)
  = truthy (skipExtendedUserProfile o) ∧
  _userProfileURL (Strategy h (Some l) verify).2
  = or_default (userProfileURL o) "https://openapi.etsy.com/v2/users/__SELF__".
Proof.
  intros Hl.
  assert (Hskip : _skipExtendedUserProfile (Strategy h (Some l) verify).2
                  = match skipExtendedUserProfile (configure o) with
                    | VUndefined => VBool false
                    | v => v
                    end)
    by (unfold Strategy; rewrite Hl; reflexivity).
  assert (Hurl : _userProfileURL (Strategy h (Some l) verify).2
                 = or_default (userProfileURL (configure o))
                     "https://openapi.etsy.com/v2/users/__SELF__")
    by (unfold Strategy; rewrite Hl; reflexivity).
  rewrite Hskip, Hurl.
  destruct (configure_keeps o) as (_ & _ & _ & _ & -> & ->).
  split; [|reflexivity]. now destruct (skipExtendedUserProfile o).
Qed.

(** X11: the skip flag of the options decides by its truthiness alone: a
    strategy built with a truthy flag completes from the parameters and
    calls the provider never; one built with the flag absent, false, null,
    zero or empty fetches from the profile URL of the options, or from the
    users/__SELF__ endpoint when the options have none. *)
Theorem X11_skip_flag_decides {V} (h : heap) (l : loc) (o : Options) (verify : V)
    (oauth_get : string → string → string → response)
    (token tokenSecret : string) (params : list (string * value)) :
  h !! l = Some o →
  let self := (Strategy h (Some l) verify).2 in
  (truthy (skipExtendedUserProfile o) = true →
   userProfile self oauth_get token tokenSecret params
   = ([Done None (Some (VObj [("provider", VStr "etsy");
                              ("id", obj_get params "user_id");
                              ("username", obj_get params "screen_name")]))],
      inr tt)) ∧
  (truthy (skipExtendedUserProfile o) = false →
   ∀ uid, to_string (obj_get params "user_id") = inr uid →
   ∃ rest,
     trace (userProfile self oauth_get token tokenSecret params)
     = OAuthGet (or_default (userProfileURL o) "https://openapi.etsy.com/v2/users/__SELF__"
                 ++ "?user_id=" ++ uid) token tokenSecret :: rest).
Proof.
  intros Hl self. destruct (Strategy_fields h l o verify Hl) as [Hskip Hurl].
  fold self in Hskip, Hurl. split; intros Hflag; rewrite Hflag in Hskip.
  - exact (userProfile_skip self oauth_get token tokenSecret params Hskip).
  - intros uid Hts.
    rewrite (userProfile_extended self oauth_get token tokenSecret params uid Hskip Hts).
    cbv zeta. rewrite Hurl. eexists. reflexivity.
Qed.

Lemma X11_witness :
  userProfile (Strategy Sample.store (Some 3%positive) tt).2
    (Sample.answers (Success "")) "token" "secret" [("user_id", VStr "42")]
  = ([Done None (Some (VObj [("provider", VStr "etsy"); ("id", VStr "42");
                             ("username", VUndefined)]))],
     inr tt).
Proof.
  exact (proj1 (X11_skip_flag_decides Sample.store 3%positive Sample.skipping tt
                  (Sample.answers (Success "")) "token" "secret" [("user_id", VStr "42")]
                  eq_refl)
               eq_refl).
Defined.

(** ** authenticate *)

(** X12: authenticate never throws and does exactly one thing: it calls
    fail when the query of the request is truthy and has a truthy denied,
    and otherwise, also when the request has no query at all, it hands the
    same request and options to the authenticate of the base class. *)
Theorem X12_fail_or_delegate {V} (self : strategy V) (req : request) (options : value) :
  (truthy (query req) = true ∧
   (∃ denied, get_prop (query req) "denied" = inr denied ∧ truthy denied = true) ∧
   authenticate self req options = ([Fail], inr tt)) ∨
  ((truthy (query req) = false ∨
    ∃ denied, get_prop (query req) "denied" = inr denied ∧ truthy denied = false) ∧
   authenticate self req options = ([SuperAuthenticate req options], inr tt)).
Proof.
  unfold authenticate.
  destruct (truthy (query req)) eqn:Hq.
  - assert (Hget : ∃ denied, get_prop (query req) "denied" = inr denied).
    { apply get_prop_some; intros Heq; rewrite Heq in Hq; discriminate. }
    destruct Hget as [denied Hget]. rewrite Hget. cbn.
    destruct (truthy denied) eqn:Hd; [left | right]; eauto 10.
  - right. cbn. rewrite Hq. eauto.
Qed.

(** ** Faults of the profile parser *)

(** X13: on anything but a string the parser writes to the console once
    and then either returns the record read from results[0] or throws a
    TypeError, never another exception; it throws exactly when the
    response, its results or the first of the results is null or
    undefined. *)
Theorem X13_parse_returns_or_faults (json : value) :
  (∀ text, json ≠ VStr text) →
  trace (Profile.parse json) = [ConsoleLog [VStr "inside profile.js: "; json]] ∧
  ((∃ results first id username emails,
      get_prop json "results" = inr results ∧
      get_index results 0 = inr first ∧
      get_prop first "user_id" = inr id ∧
      get_prop first "login_name" = inr username ∧
      get_prop first "primary_email" = inr emails ∧
      outcome (Profile.parse json)
      = inr (VObj [("id", id); ("username", username); ("emails", emails)])) ∨
   (outcome (Profile.parse json) = inl TypeError ∧
    (get_prop json "results" = inl TypeError ∨
     ∃ results,
       get_prop json "results" = inr results ∧
       (get_index results 0 = inl TypeError ∨
        ∃ first,
          get_index results 0 = inr first ∧ get_prop first "user_id" = inl TypeError)))).
Proof.
  intros Hns. unfold Profile.parse.
  assert (Hpre : match json with
                 | VStr text =>
                     match JSON.parse text with
                     | Some j => ret j
                     | None => throw SyntaxError
                     end
                 | _ => ret json
                 end = ret json).
  { destruct json; try reflexivity. now destruct (Hns s). }
  rewrite Hpre. clear Hpre Hns.
  cbv beta iota zeta delta [bind ret lift emit trace outcome].
  destruct (get_prop json "results") as [ex|results] eqn:Hres.
  { assert (ex = TypeError) as -> by (destruct json; try discriminate; now injection Hres).
    split; [reflexivity|]. right. split; [reflexivity | now left]. }
  destruct (get_index results 0) as [ex|first] eqn:Hfirst.
  { assert (ex = TypeError) as -> by (destruct results; try discriminate; now injection Hfirst).
    split; [reflexivity|]. right. split; [reflexivity|].
    right. exists results. split; [reflexivity | now left]. }
  assert (Hcases : first = VNull ∨ first = VUndefined ∨
                   ∃ id username emails,
                     get_prop first "user_id" = inr id ∧
                     get_prop first "login_name" = inr username ∧
                     get_prop first "primary_email" = inr emails).
  { destruct first; eauto; right; right; cbn; eauto 10. }
  destruct Hcases as [->|[->|(id & username & emails & Hid & Hname & Hmail)]].
  - split; [reflexivity|]. right. split; [reflexivity|].
    right. exists results. split; [reflexivity|]. right. exists VNull. now split.
  - split; [reflexivity|]. right. split; [reflexivity|].
    right. exists results. split; [reflexivity|]. right. exists VUndefined. now split.
  - rewrite Hid, Hname, Hmail. split; [reflexivity|]. left.
    exists results, first, id, username, emails. now repeat split.
Qed.

Lemma X13_witness :
  trace (Profile.parse VNull) = [ConsoleLog [VStr "inside profile.js: "; VNull]] ∧
  outcome (Profile.parse VNull) = inl TypeError.
Proof.
  assert (Hns : ∀ text, VNull ≠ VStr text) by discriminate.
  destruct (X13_parse_returns_or_faults VNull Hns)
    as [Htrace [(r & f & i & u & e & Hres & _)|[Hout _]]].
  - discriminate Hres.
  - split; [exact Htrace | exact Hout].
Defined.

(** X14: the parser reads results[0] and nothing else of the response:
    two responses with the same first result give the same outcome,
    whatever else they hold. *)
Theorem X14_parse_reads_first_result (fields fields' : list (string * value))
    (first : value) (rest rest' : list value) :
  own fields "results" = Some (VArr (first :: rest)) →
  own fields' "results" = Some (VArr (first :: rest')) →
  outcome (Profile.parse (VObj fields)) = outcome (Profile.parse (VObj fields')).
Proof.
  intros Hres Hres'. unfold Profile.parse.
  cbv beta iota zeta delta [bind ret lift emit trace outcome get_prop obj_get].
  rewrite Hres, Hres'. cbn [default from_option get_index lookup list_lookup].
  destruct first; reflexivity.
Qed.

Lemma X14_witness :
  outcome (Profile.parse (VObj [("results", VArr [VObj [("user_id", VNum 1 0)]; VNull])]))
  = outcome (Profile.parse
               (VObj [("count", VNum 1 0); ("results", VArr [VObj [("user_id", VNum 1 0)]])])).
Proof.
  exact (X14_parse_reads_first_result
           [("results", VArr [VObj [("user_id", VNum 1 0)]; VNull])]
           [("count", VNum 1 0); ("results", VArr [VObj [("user_id", VNum 1 0)]])]
           (VObj [("user_id", VNum 1 0)]) [VNull] [] eq_refl eq_refl).
Defined.

(** X15: a first result without user_id, login_name and primary_email is
    no error: the fetch completes with a profile whose id, username and
    emails are there and undefined. *)
Theorem X15_missing_fields_undefined {V} (self : strategy V)
    (oauth_get : string → string → string → response)
    (token tokenSecret uid body : string) (params : list (string * value))
    (fields rf : list (string * value)) (rest : list value) :
  truthy (_skipExtendedUserProfile self) = false →
  to_string (obj_get params "user_id") = inr uid →
  oauth_get (_userProfileURL self ++ "?user_id=" ++ uid) token tokenSecret = Success body →
  JSON.parse body = Some (VObj fields) →
  own fields "results" = Some (VArr (VObj rf :: rest)) →
  own rf "user_id" = None → own rf "login_name" = None → own rf "primary_email" = None →
  userProfile self oauth_get token tokenSecret params
  = ([OAuthGet (_userProfileURL self ++ "?user_id=" ++ uid) token tokenSecret;
      ConsoleLog [VStr "inside profile.js: "; VObj fields];
      Done None
        (Some (VObj [("id", VUndefined); ("username", VUndefined); ("emails", VUndefined);
                     ("provider", VStr "etsy"); ("_raw", VStr body);
                     ("_json", VObj fields)]))],
     inr tt).
Proof.
  intros Hskip Hts Hget Hp Hres Hid Hname Hmail. fetch Hskip Hts Hget.
  pose proof (parse_object _ _ _ Hres) as Hpp. unfold obj_get in Hpp.
  rewrite Hid, Hname, Hmail in Hpp. cbn [default from_option] in Hpp.
  now rewrite (on_response_profile _ _ _ _ _ _ Hp Hpp).
Qed.

Lemma X15_witness :
  userProfile Sample.etsy (Sample.answers (Success (JSON.q "{'results':[{}]}")))
    "token" "secret" [("user_id", VStr "42")]
  = ([OAuthGet "https://openapi.etsy.com/v2/users/__SELF__?user_id=42" "token" "secret";
      ConsoleLog [VStr "inside profile.js: "; VObj [("results", VArr [VObj []])]];
      Done None
        (Some (VObj [("id", VUndefined); ("username", VUndefined); ("emails", VUndefined);
                     ("provider", VStr "etsy"); ("_raw", VStr (JSON.q "{'results':[{}]}"));
                     ("_json", VObj [("results", VArr [VObj []])])]))],
     inr tt).
Proof.
  exact (X15_missing_fields_undefined Sample.etsy
           (Sample.answers (Success (JSON.q "{'results':[{}]}")))
           "token" "secret" "42" (JSON.q "{'results':[{}]}") [("user_id", VStr "42")]
           [("results", VArr [VObj []])] [] []
           eq_refl eq_refl eq_refl eq_refl eq_refl eq_refl eq_refl eq_refl).
Defined.

(** ** userAuthorizationParams *)

(** X16: for an options object userAuthorizationParams never throws; its
    result has force_login exactly when forceLogin is truthy and
    screen_name exactly when screenName is truthy, each with the value of
    the option, and no other key. *)
Theorem X16_authorization_params {V} (self : strategy V) (options : list (string * value)) :
  ∃ params,
    userAuthorizationParams self (VObj options) = inr (VObj params) ∧
    own params "force_login"
    = (if truthy (obj_get options "forceLogin")
       then Some (obj_get options "forceLogin") else None) ∧
    own params "screen_name"
    = (if truthy (obj_get options "screenName")
       then Some (obj_get options "screenName") else None) ∧
    ∀ k, is_Some (own params k) → k = "force_login" ∨ k = "screen_name".
Proof.
  unfold userAuthorizationParams. cbn [get_prop].
  assert (Hkey : ∀ k (name : string) (v : value),
            is_Some (if String.eqb name k then Some v else None) → k = name).
  { intros k name v. destruct (String.eqb_spec name k) as [->|_]; [reflexivity|].
    intros [x Hx]. discriminate. }
  destruct (truthy (obj_get options "forceLogin")) eqn:Hf;
    destruct (truthy (obj_get options "screenName")) eqn:Hs;
    cbn [set_prop obj_set]; rewrite ?Hs; cbn [set_prop obj_set String.eqb Ascii.eqb Bool.eqb];
    eexists; (split; [reflexivity|]); (split; [reflexivity|]); (split; [reflexivity|]);
    intros k; cbn [own].
  - destruct (String.eqb_spec "force_login" k) as [<-|_]; [now left|].
    intros H. right. now apply (Hkey k "screen_name" _ H).
  - intros H. left. now apply (Hkey k "force_login" _ H).
  - intros H. right. now apply (Hkey k "screen_name" _ H).
  - intros [x Hx]. discriminate.
Qed.

(** ** Defaults *)

Lemma or_default_cases (s : option string) (d : string) :
  (∀ u, s = Some u → u ≠ "" → or_default s d = u) ∧
  (s = None ∨ s = Some "" → or_default s d = d).
Proof.
  split.
  - intros u -> Hu. unfold or_default. destruct u; [congruence | reflexivity].
  - intros [-> | ->]; reflexivity.
Qed.

(** X17: a non-empty access-token URL, authorization URL or session key
    of the caller is handed on as it is; one that is absent or the empty
    string is replaced by the Etsy endpoint, or by oauth:etsy for the
    session key. *)
Theorem X17_defaults {V} (h : heap) (l : loc) (o : Options) (verify : V) :
  h !! l = Some o →
  let given := oauth_options (Strategy h (Some l) verify).2 in
  ((∀ u, accessTokenURL o = Some u → u ≠ "" → accessTokenURL given = Some u) ∧
   (accessTokenURL o = None ∨ accessTokenURL o = Some "" →
    accessTokenURL given = Some "https://openapi.etsy.com/v2/oauth/access_token")) ∧
  ((∀ u, userAuthorizationURL o = Some u → u ≠ "" → userAuthorizationURL given = Some u) ∧
   (userAuthorizationURL o = None ∨ userAuthorizationURL o = Some "" →
    userAuthorizationURL given = Some "https://www.etsy.com/oauth/signin")) ∧
  ((∀ k, sessionKey o = Some k → k ≠ "" → sessionKey given = Some k) ∧
   (sessionKey o = None ∨ sessionKey o = Some "" → sessionKey given = Some "oauth:etsy")).
Proof.
  intros Hl given. destruct (Strategy_at h l o verify Hl) as [_ Hopts].
  subst given. rewrite Hopts, configure_explicit.
  cbn [accessTokenURL userAuthorizationURL sessionKey].
  repeat split.
  - intros u Hs Hu. f_equal. now apply or_default_cases.
  - intros Hs. f_equal. now apply or_default_cases.
  - intros u Hs Hu. f_equal. now apply or_default_cases.
  - intros Hs. f_equal. now apply or_default_cases.
  - intros u Hs Hu. f_equal. now apply or_default_cases.
  - intros Hs. f_equal. now apply or_default_cases.
Qed.

Lemma X17_witness :
  accessTokenURL (oauth_options (Strategy Sample.store (Some 1%positive) tt).2)
  = Some "https://openapi.etsy.com/v2/oauth/access_token".
Proof.
  exact (proj2 (proj1 (X17_defaults Sample.store 1%positive Sample.credentials tt eq_refl))
           (or_introl eq_refl)).
Defined.
